(** * Browser Tools MCP: a shallow embedding of the registry, the React facade
      and the Express event intake, with the properties of their specification.

    Sources embedded here:
    - [browser-tools-mcp.ts]   (class [BrowserToolsMCP] and its default tools),
    - [integrations/react-hooks.ts]   ([useBrowserTools]),
    - [integrations/express-middleware.ts]   (class [BrowserToolsExpress]).

    JavaScript values are a first-order datatype, statements that may throw
    are computations in a state-and-exception monad, [try]/[catch] is a
    combinator of that monad, and everything the program does not own (the
    console, the clock, the host objects of the browser, the Supabase client)
    is either a field of the state or an explicit interface. *)

From Stdlib Require Import ZArith List Bool Ascii String Lia Sorted Permutation.
From stdpp Require Import base option gmap strings list fin_maps.
Import ListNotations.
Local Open Scope string_scope.
Local Open Scope Z_scope.
Local Set Warnings "-register-all".

(* ===================================================================== *)
(** * JavaScript values *)
(* ===================================================================== *)

Module Js.

(** Numbers.  A finite Number is kept as the exact decimal [m / 10^k] of
    the double (so [Dec 7 0] is [7] and [Dec 15 1] is [1.5]; every double is
    a finite decimal): the operations that make a number round their exact
    result to the nearest double, see [Numeric.binary64].  The negative zero
    is identified with zero.  [NaN] and the two infinities are values of
    their own. *)
Inductive JsNum : Type :=
| NaN
| Inf (negative : bool)
| Dec (m : Z) (k : nat).

Definition Int (z : Z) : JsNum := Dec z 0.

(** Values.  An object is the list of its own enumerable properties in
    creation order; a function value is the identity of a function object,
    whose behaviour lives in the environment that runs it. *)
Inductive JsVal : Type :=
| VUndefined
| VNull
| VBool (b : bool)
| VNum (n : JsNum)
| VStr (s : string)
| VArr (elems : list JsVal)
| VObj (props : list (string * JsVal))
| VFun (f : nat).

(** The double quote character, for messages that quote a name. *)
Definition dq : string := String (ascii_of_nat 34) EmptyString.

(** [ToBoolean]: the falsy values are [undefined], [null], [false], [0],
    [NaN] and the empty string. *)
Definition truthy (v : JsVal) : bool :=
  match v with
  | VUndefined | VNull => false
  | VBool b => b
  | VNum NaN => false
  | VNum (Inf _) => true
  | VNum (Dec m _) => negb (m =? 0)
  | VStr s => match s with EmptyString => false | String _ _ => true end
  | VArr _ | VObj _ | VFun _ => true
  end.

(** [a || b] on values whose right operand has no effect. *)
Definition or_else (a b : JsVal) : JsVal := if truthy a then a else b.

Definition nullish (v : JsVal) : bool :=
  match v with VUndefined | VNull => true | _ => false end.

(** Own property lookup in an object literal. *)
Fixpoint lookup_prop (k : string) (props : list (string * JsVal)) : option JsVal :=
  match props with
  | [] => None
  | (k', v) :: rest => if String.eqb k k' then Some v else lookup_prop k rest
  end.

(** [new Error(message)] and the built-in error classes, reduced to the two
    properties a handler can read back. *)
Definition mkError (name message : string) : JsVal :=
  VObj [("name", VStr name); ("message", VStr message)].

Definition TypeError (message : string) : JsVal := mkError "TypeError" message.
Definition RangeError (message : string) : JsVal := mkError "RangeError" message.
Definition ReferenceError (message : string) : JsVal := mkError "ReferenceError" message.

(** [ToPrimitive] completes on [v], with either hint.  An object is
    converted by the [toString] and [valueOf] it inherits unless it shadows
    them: the values met here are parsed data, in which no property holds a
    function, so an object with a [toString] of its own has no callable one
    and the conversion throws a [TypeError].  An array is joined, which
    converts each of its elements. *)
Fixpoint printable (v : JsVal) : bool :=
  match v with
  | VArr elems => forallb printable elems
  | VObj props => match lookup_prop "toString" props with
                  | Some _ => false
                  | None => true
                  end
  | _ => true
  end.

Definition not_primitive : JsVal := TypeError "Cannot convert object to primitive value".

(** ** Completions and the monad of statements *)

Inductive Completion (A : Type) : Type :=
| Normal (a : A)
| Throw (e : JsVal).
Arguments Normal {A} a.
Arguments Throw {A} e.

(** A statement over a world [W] either completes with a value or throws,
    and leaves a world behind in both cases. *)
Definition M (W A : Type) : Type := W -> Completion A * W.

Definition ret {W A} (a : A) : M W A := fun w => (Normal a, w).
Definition throw {W A} (e : JsVal) : M W A := fun w => (Throw e, w).
Definition bind {W A B} (c : M W A) (k : A -> M W B) : M W B :=
  fun w => match c w with
           | (Normal a, w') => k a w'
           | (Throw e, w') => (Throw e, w')
           end.
(** [try { body } catch (e) { handler e }] *)
Definition try_catch {W A} (body : M W A) (handler : JsVal -> M W A) : M W A :=
  fun w => match body w with
           | (Normal a, w') => (Normal a, w')
           | (Throw e, w') => handler e w'
           end.
Definition lift {W A} (c : Completion A) : M W A := fun w => (c, w).
Definition gets {W A} (f : W -> A) : M W A := fun w => (Normal (f w), w).
Definition modify {W} (f : W -> W) : M W unit := fun w => (Normal tt, f w).

#[global] Instance M_ret W : MRet (M W) := fun A => @ret W A.
#[global] Instance M_bind W : MBind (M W) := fun A B k c => @bind W A B c k.

(** Property read [v.k].  Reading a property of [undefined] or [null] throws
    a [TypeError]; an object answers with its own property or [undefined].
    The program only reads data properties ([type], [data], [message], ...),
    none of which exists on a primitive, an array or a function, so those
    answer [undefined]. *)
Definition get (v : JsVal) (k : string) : Completion JsVal :=
  match v with
  | VUndefined | VNull =>
      Throw (TypeError ("Cannot read properties of undefined or null (reading '" ++ k ++ "')"))
  | VObj props => Normal (default VUndefined (lookup_prop k props))
  | _ => Normal VUndefined
  end.

(** ** The console *)

Inductive ConsoleMethod : Type :=
| c_log | c_warn | c_error | c_group | c_groupEnd | c_table.

(** An argument of a console call: a plain value, or the text of a
    template literal with one interpolated value, kept as its parts. *)
Inductive ConsoleArg : Type :=
| Val (v : JsVal)
| Template (before : string) (v : JsVal) (after : string).

Record ConsoleCall : Type := Console { method : ConsoleMethod; arguments : list ConsoleArg }.

(** The template literal [`before${v}after`]: it converts [v] to a string,
    which throws where [v] cannot be converted. *)
Definition template (before : string) (v : JsVal) (after : string) : Completion ConsoleArg :=
  if printable v then Normal (Template before v after) else Throw not_primitive.

End Js.
Export Js.

(* ===================================================================== *)
(** * The tool registry ([browser-tools-mcp.ts]) *)
(* ===================================================================== *)

Module Registry.

(** [interface BrowserTool]: [execute] is a function object. *)
Record BrowserTool : Type := Tool {
  name : string;
  description : string;
  execute : nat
}.

(** A canvas element, as far as the probe uses it: [getContext(kind)]. *)
Definition Element : Type := string -> Completion JsVal.

(** The host objects of the page.  A global that the host does not declare
    is [None]; reading a property of [window] gives a value ([undefined]
    when the property is absent) or raises what its getter raises. *)
Record Host : Type := {
  window : option (string -> Completion JsVal);
  navigator : option (string -> bool);
  document : option (string -> Completion Element)
}.

(** The world of the page: the [tools] map of the shared [browserTools]
    instance, the console, [process.env.NODE_ENV], the host objects, and
    the record of every function call made so far (kept for the proofs:
    the program never reads it). *)
Record Browser : Type := {
  tools : gmap string BrowserTool;
  console : list ConsoleCall;
  calls : list (nat * list JsVal);
  NODE_ENV : JsVal;
  host : Host
}.

Definition set_tools (f : gmap string BrowserTool -> gmap string BrowserTool) (w : Browser) : Browser :=
  {| tools := f (tools w); console := console w; calls := calls w;
     NODE_ENV := NODE_ENV w; host := host w |}.
Definition set_console (f : list ConsoleCall -> list ConsoleCall) (w : Browser) : Browser :=
  {| tools := tools w; console := f (console w); calls := calls w;
     NODE_ENV := NODE_ENV w; host := host w |}.
Definition set_calls (f : list (nat * list JsVal) -> list (nat * list JsVal)) (w : Browser) : Browser :=
  {| tools := tools w; console := console w; calls := f (calls w);
     NODE_ENV := NODE_ENV w; host := host w |}.

Definition print (m : ConsoleMethod) (args : list ConsoleArg) : M Browser unit :=
  modify (set_console (fun out => (out ++ [Console m args])%list)).

(** The behaviour of the function objects of the page: what calling the
    function [f] on [args] does to the world.  Tools supplied by callers
    and callbacks handed to the facade live here. *)
Class FunctionObjects : Type :=
  fn_body : nat -> list JsVal -> M Browser JsVal.

Section WithFunctions.
Context `{FunctionObjects}.

(** [f(...args)]: the call is recorded, then the body runs. *)
Definition call (f : nat) (args : list JsVal) : M Browser JsVal :=
  modify (set_calls (fun cs => (cs ++ [(f, args)])%list));; fn_body f args.

(** [v(...args)] for an arbitrary value [v]. *)
Definition call_value (v : JsVal) (args : list JsVal) : M Browser JsVal :=
  match v with
  | VFun f => call f args
  | _ => throw (TypeError "value is not a function")
  end.

(** [registerTool(tool)] *)
Definition registerTool (tool : BrowserTool) : M Browser unit :=
  registered ← gets tools;
  (if bool_decide (is_Some (registered !! name tool))
   then print c_warn [Val (VStr ("Ferramenta " ++ dq ++ name tool ++ dq
                                   ++ " já está registrada. Substituindo..."))]
   else ret tt);;
  modify (set_tools (insert (name tool) tool));;
  print c_log [Val (VStr ("Ferramenta " ++ dq ++ name tool ++ dq
                            ++ " registrada com sucesso."))].

(** The error of [executeTool] for a name that is not registered. *)
Definition notFound (name : string) : JsVal :=
  mkError "Error" ("Ferramenta " ++ dq ++ name ++ dq ++ " não encontrada.").

(** The [catch] block of [executeTool]: report, then rethrow. *)
Definition report_and_rethrow (name : string) (error : JsVal) : M Browser JsVal :=
  print c_error [Val (VStr ("Erro ao executar a ferramenta " ++ dq ++ name ++ dq ++ ":"));
                 Val error];;
  throw error.

(** [executeTool(name, ...args)] *)
Definition executeTool (name : string) (args : list JsVal) : M Browser JsVal :=
  tool ← gets (fun w => tools w !! name);
  match tool with
  | None => throw (notFound name)
  | Some tool => try_catch (call (execute tool) args) (report_and_rethrow name)
  end.

(** ** The capability probe, the [execute] of tool [checkBrowserCompatibility] *)

(** [window.p] *)
Definition window_read (p : string) : M Browser JsVal :=
  h ← gets host;
  match window h with
  | None => throw (ReferenceError "window is not defined")
  | Some win => lift (win p)
  end.

(** ['p' in navigator] *)
Definition in_navigator (p : string) : M Browser bool :=
  h ← gets host;
  match navigator h with
  | None => throw (ReferenceError "navigator is not defined")
  | Some nav => ret (nav p)
  end.

(** [document.createElement(tag)] *)
Definition createElement (tag : string) : M Browser Element :=
  h ← gets host;
  match document h with
  | None => throw (ReferenceError "document is not defined")
  | Some create => lift (create tag)
  end.

(** The immediately invoked function of the [webGL] entry. *)
Definition probe_webGL : M Browser bool :=
  try_catch
    (canvas ← createElement "canvas";
     ctor ← window_read "WebGLRenderingContext";
     if truthy ctor then
       webgl ← lift (canvas "webgl");
       if truthy webgl then ret true
       else experimental ← lift (canvas "experimental-webgl");
            ret (truthy experimental)
     else ret false)
    (fun e => ret false).

(** [window.RTCPeerConnection || window.webkitRTCPeerConnection ||
    window.mozRTCPeerConnection] *)
Definition probe_webRTC : M Browser JsVal :=
  standard ← window_read "RTCPeerConnection";
  if truthy standard then ret standard
  else webkit ← window_read "webkitRTCPeerConnection";
       if truthy webkit then ret webkit
       else window_read "mozRTCPeerConnection".

Definition checkBrowserCompatibility : M Browser JsVal :=
  localStorage ← window_read "localStorage";
  sessionStorage ← window_read "sessionStorage";
  webSockets ← window_read "WebSocket";
  serviceWorkers ← in_navigator "serviceWorker";
  webGL ← probe_webGL;
  webRTC ← probe_webRTC;
  let features := VObj [("localStorage", VBool (truthy localStorage));
                        ("sessionStorage", VBool (truthy sessionStorage));
                        ("webSockets", VBool (truthy webSockets));
                        ("serviceWorkers", VBool serviceWorkers);
                        ("webGL", VBool webGL);
                        ("webRTC", VBool (truthy webRTC))] in
  print c_table [Val features];;
  ret features.

End WithFunctions.

(** ** What the registry writes and what the probe answers *)

Definition warning (tool : BrowserTool) : ConsoleCall :=
  Console c_warn [Val (VStr ("Ferramenta " ++ dq ++ name tool ++ dq
                               ++ " já está registrada. Substituindo..."))].

Definition success (tool : BrowserTool) : ConsoleCall :=
  Console c_log [Val (VStr ("Ferramenta " ++ dq ++ name tool ++ dq
                              ++ " registrada com sucesso."))].

Definition failure (name : string) (error : JsVal) : ConsoleCall :=
  Console c_error [Val (VStr ("Erro ao executar a ferramenta " ++ dq ++ name ++ dq ++ ":"));
                   Val error].

(** The properties of [window] that the probe reads outside its [try]. *)
Definition plain_checks : list string :=
  ["localStorage"; "sessionStorage"; "WebSocket";
   "RTCPeerConnection"; "webkitRTCPeerConnection"; "mozRTCPeerConnection"].

Definition features (b1 b2 b3 b4 b5 b6 : bool) : JsVal :=
  VObj [("localStorage", VBool b1); ("sessionStorage", VBool b2); ("webSockets", VBool b3);
        ("serviceWorkers", VBool b4); ("webGL", VBool b5); ("webRTC", VBool b6)].

End Registry.

(* ===================================================================== *)
(** * The React facade ([integrations/react-hooks.ts]) *)
(* ===================================================================== *)

Module Hooks.
Import Registry.

Section WithFunctions.
Context `{FunctionObjects}.

(** [process.env.NODE_ENV === 'development'] *)
Definition development (env : JsVal) : bool :=
  match env with
  | VStr s => String.eqb s "development"
  | _ => false
  end.

(** The optional parameter [label?: string] as a value. *)
Definition label_value (label : option string) : JsVal :=
  match label with
  | Some l => VStr l
  | None => VUndefined
  end.

(** [debugState(state, label?)] *)
Definition debugState (state : JsVal) (label : option string) : M Browser JsVal :=
  env ← gets NODE_ENV;
  (if development env then
     (if truthy (label_value label)
      then print c_group [Val (VStr ("Estado do Componente: " ++ default EmptyString label))]
      else ret tt);;
     executeTool "debugState" [state];;
     (if truthy (label_value label) then print c_groupEnd [] else ret tt)
   else ret tt);;
  ret state.

(** [measurePerformance(fn, label?)] *)
Definition measurePerformance (fn : JsVal) (label : option string) : M Browser JsVal :=
  env ← gets NODE_ENV;
  if development env then
    print c_log [Val (VStr ("Iniciando medição"
                              ++ (if truthy (label_value label)
                                  then ": " ++ default EmptyString label
                                  else EmptyString)
                              ++ "..."))];;
    executeTool "measurePerformance" [fn]
  else call_value fn [].

(** [exportData(data, filename?)] *)
Definition exportData (data : JsVal) (filename : option string) : M Browser JsVal :=
  executeTool "exportData" [data; label_value filename].

(** [checkBrowserCompatibility()] *)
Definition checkBrowserCompatibility : M Browser JsVal :=
  executeTool "checkBrowserCompatibility" [].

End WithFunctions.
End Hooks.

(* ===================================================================== *)
(** * Built-ins of the language used by the server: [Number] and [Date] *)
(* ===================================================================== *)

Module Numeric.

Definition code (c : ascii) : Z := Z.of_nat (nat_of_ascii c).

Definition digit_value (radix : Z) (c : ascii) : option Z :=
  let n := code c in
  let v := if (48 <=? n) && (n <=? 57) then Some (n - 48)
           else if (97 <=? n) && (n <=? 102) then Some (n - 87)
           else if (65 <=? n) && (n <=? 70) then Some (n - 55)
           else None in
  match v with
  | Some d => if d <? radix then Some d else None
  | None => None
  end.

(** The longest prefix of digits of [s]: its value on top of [acc], the
    number of digits read on top of [len], and the rest of the string. *)
Fixpoint digits (radix acc : Z) (len : nat) (s : string) : Z * nat * string :=
  match s with
  | String c r =>
      match digit_value radix c with
      | Some d => digits radix (acc * radix + d) (S len) r
      | None => (acc, len, s)
      end
  | EmptyString => (acc, len, s)
  end.

(** White space and line terminators of the language, in UTF-8: the six
    ASCII ones, U+00A0, and the three-byte ones (U+1680, U+2000..U+200A,
    U+2028, U+2029, U+202F, U+205F, U+3000, U+FEFF). *)
Definition space1 (a : ascii) : bool :=
  let n := code a in ((9 <=? n) && (n <=? 13)) || (n =? 32).
Definition space2 (a b : ascii) : bool :=
  (code a =? 194) && (code b =? 160).
Definition space3 (a b c : ascii) : bool :=
  let '(x, y, z) := (code a, code b, code c) in
  ((x =? 225) && (y =? 154) && (z =? 128))
  || ((x =? 226) && (y =? 128)
      && (((128 <=? z) && (z <=? 138)) || (z =? 168) || (z =? 169) || (z =? 175)))
  || ((x =? 226) && (y =? 129) && (z =? 159))
  || ((x =? 227) && (y =? 128) && (z =? 128))
  || ((x =? 239) && (y =? 187) && (z =? 191)).

(** Drops the white space at the front of [s]; with [backwards] the string
    is read from its end, so multi-byte characters come last byte first. *)
Fixpoint strip (backwards : bool) (s : string) : string :=
  match s with
  | String a r1 =>
      if space1 a then strip backwards r1 else
      match r1 with
      | String b r2 =>
          if (if backwards then space2 b a else space2 a b) then strip backwards r2 else
          match r2 with
          | String c r3 =>
              if (if backwards then space3 c b a else space3 a b c)
              then strip backwards r3 else s
          | EmptyString => s
          end
      | EmptyString => s
      end
  | EmptyString => s
  end.

Fixpoint rev_onto (s acc : string) : string :=
  match s with
  | String a r => rev_onto r (String a acc)
  | EmptyString => acc
  end.

Definition trim (s : string) : string :=
  rev_onto (strip true (rev_onto (strip false s) EmptyString)) EmptyString.

(** ** The Number value for a mathematical value

    A double is [m * 2^e] for integers [m] and [e] with [|m| < 2^53] and
    [-1074 <= e <= 971].  The Number value for a real is the double nearest
    to it, the one with an even [m] when two are as near, and an infinity
    from [2^1024 - 2^970] on. *)

(** [n / d] rounded to the nearest integer, a tie to the even one, for
    [0 <= n] and [0 < d]. *)
Definition half_even (n d : Z) : Z :=
  let f := n / d in
  let twice := 2 * (n mod d) in
  if twice <? d then f
  else if d <? twice then f + 1
  else if Z.even f then f else f + 1.

(** The fraction [(a / q) / 2^e]. *)
Definition scaled (a q e : Z) : Z * Z :=
  if 0 <=? e then (a, q * 2 ^ e) else (a * 2 ^ (- e), q).

(** The exponent of the doubles around [a / q], for [0 < a] and [0 < q]:
    the [e] with [2^52 <= (a / q) / 2^e < 2^53], and [-1074] below the
    normal range. *)
Definition exponent_of (a q : Z) : Z :=
  let e := Z.log2 a - Z.log2 q - 53 in
  let '(n, d) := scaled a q e in
  Z.max (if 2 ^ 53 <=? n / d then e + 1 else e) (- 1074).

(** [m / 10^k] in lowest decimal terms. *)
Fixpoint lowest (k : nat) (m : Z) : JsNum :=
  match k with
  | O => Dec m 0
  | S k' => if m mod 10 =? 0 then lowest k' (m / 10) else Dec m k
  end.

(** The Number value for [p / q], for [0 < q]. *)
Definition binary64 (p q : Z) : JsNum :=
  if p =? 0 then Dec 0 0
  else
    let e := exponent_of (Z.abs p) q in
    let '(n, d) := scaled (Z.abs p) q e in
    let m := Z.sgn p * half_even n d in
    if 0 <=? e then
      if 2 ^ 1024 <=? Z.abs m * 2 ^ e then Inf (p <? 0) else Dec (m * 2 ^ e) 0
    else lowest (Z.to_nat (- e)) (m * 5 ^ (- e)).

(** The Number value for [m * 10^e]. *)
Definition scientific (m e : Z) : JsNum :=
  if 0 <=? e then binary64 (m * 10 ^ e) 1 else binary64 m (10 ^ (- e)).

(** [ExponentPart], optional, up to the end of the literal. *)
Definition exponent_part (s : string) : option Z :=
  match s with
  | EmptyString => Some 0
  | String c r =>
      if (code c =? 101) || (code c =? 69) then
        let '(neg, r') :=
          match r with
          | String s' r' => if code s' =? 43 then (false, r')
                            else if code s' =? 45 then (true, r')
                            else (false, r)
          | EmptyString => (false, r)
          end in
        match digits 10 0 0 r' with
        | (v, S _, EmptyString) => Some (if neg then - v else v)
        | _ => None
        end
      else None
  end.

(** [StrUnsignedDecimalLiteral] other than [Infinity]: mantissa and decimal
    exponent. *)
Definition unsigned_decimal (s : string) : option (Z * Z) :=
  let '(i, ni, r) := digits 10 0 0 s in
  match r with
  | String c r1 =>
      if code c =? 46 then
        let '(m, nf, r2) := digits 10 i 0 r1 in
        match ni, nf with
        | O, O => None
        | _, _ => match exponent_part r2 with
                  | Some e => Some (m, e - Z.of_nat nf)
                  | None => None
                  end
        end
      else match ni with
           | O => None
           | S _ => match exponent_part r with
                    | Some e => Some (i, e)
                    | None => None
                    end
           end
  | EmptyString => match ni with O => None | S _ => Some (i, 0) end
  end.

Definition negate (n : JsNum) : JsNum :=
  match n with
  | NaN => NaN
  | Inf s => Inf (negb s)
  | Dec m k => Dec (- m) k
  end.

Definition unsigned_literal (s : string) : JsNum :=
  if String.eqb s "Infinity" then Inf false
  else match unsigned_decimal s with
       | Some (m, e) => scientific m e
       | None => NaN
       end.

(** [NonDecimalIntegerLiteral] after its two-character prefix. *)
Definition radix_literal (radix : Z) (s : string) : JsNum :=
  match digits radix 0 0 s with
  | (v, S _, EmptyString) => binary64 v 1
  | _ => NaN
  end.

(** [StringToNumber] *)
Definition StringToNumber (s : string) : JsNum :=
  match trim s with
  | EmptyString => Dec 0 0
  | String a r as t =>
      let radix :=
        match r with
        | String b _ =>
            if negb (code a =? 48) then None
            else if (code b =? 120) || (code b =? 88) then Some 16
            else if (code b =? 111) || (code b =? 79) then Some 8
            else if (code b =? 98) || (code b =? 66) then Some 2
            else None
        | EmptyString => None
        end in
      match radix, r with
      | Some rx, String _ body => radix_literal rx body
      | _, _ =>
          if code a =? 43 then unsigned_literal r
          else if code a =? 45 then negate (unsigned_literal r)
          else unsigned_literal t
      end
  end.

(** [StringToNumber (ToString v)] for an element [v] of an array that can
    be converted: a one-element array prints as its element, [null] and
    [undefined] print as the empty string, a number prints as a literal of
    itself, and every other print (of a boolean, an object, a function, or
    an array with a comma in it) is no numeric literal. *)
Fixpoint element_number (v : JsVal) : JsNum :=
  match v with
  | VUndefined | VNull => Dec 0 0
  | VBool _ => NaN
  | VNum n => n
  | VStr s => StringToNumber s
  | VArr [] => Dec 0 0
  | VArr [x] => element_number x
  | VArr (_ :: _ :: _) => NaN
  | VObj _ | VFun _ => NaN
  end.

(** [ToNumber] of the primitive value of [v], for a [v] that has one. *)
Definition primitive_number (v : JsVal) : JsNum :=
  match v with
  | VUndefined => NaN
  | VNull => Dec 0 0
  | VBool b => Dec (if b then 1 else 0) 0
  | VNum n => n
  | VStr s => StringToNumber s
  | VArr _ => element_number v
  | VObj _ | VFun _ => NaN
  end.

(** [Number(v)]: [ToPrimitive] with hint number, which throws where [v] has
    no primitive value, and then the number of that value. *)
Definition ToNumber (v : JsVal) : Completion JsNum :=
  if printable v then Normal (primitive_number v) else Throw not_primitive.

(** [a - b] for an integer [a]: the Number value for the difference. *)
Definition int_minus (a : Z) (b : JsNum) : JsNum :=
  match b with
  | NaN => NaN
  | Inf s => Inf (negb s)
  | Dec m k => binary64 (a * 10 ^ Z.of_nat k - m) (10 ^ Z.of_nat k)
  end.

(** [ToIntegerOrInfinity] of a finite number: truncation towards zero. *)
Definition truncate (m : Z) (k : nat) : Z := Z.quot m (10 ^ Z.of_nat k).

End Numeric.

Module Date.
Import Numeric.

(** Time values are milliseconds since the epoch; [None] is the time value
    [NaN] of an invalid date. *)
Definition msPerDay : Z := 86400000.
Definition msPerHour : Z := 3600000.
Definition msPerMinute : Z := 60000.
Definition msPerSecond : Z := 1000.

Definition Day (t : Z) : Z := t / msPerDay.
Definition TimeWithinDay (t : Z) : Z := t mod msPerDay.

Definition DaysInYear (y : Z) : Z :=
  if (y mod 4 =? 0) && (negb (y mod 100 =? 0) || (y mod 400 =? 0)) then 366 else 365.

Definition DayFromYear (y : Z) : Z :=
  365 * (y - 1970) + (y - 1969) / 4 - (y - 1901) / 100 + (y - 1601) / 400.

(** The year of day number [d]: the largest [y] with [DayFromYear y <= d],
    found from the mean length of a year and one step either way. *)
Definition YearFromDay (d : Z) : Z :=
  let y := 1970 + d * 400 / 146097 in
  if d <? DayFromYear y then y - 1
  else if DayFromYear (y + 1) <=? d then y + 1
  else y.

Definition YearFromTime (t : Z) : Z := YearFromDay (Day t).
Definition InLeapYear (t : Z) : Z := DaysInYear (YearFromTime t) - 365.
Definition DayWithinYear (t : Z) : Z := Day t - DayFromYear (YearFromTime t).

(** Days of the year before the first of [month] (0 is January). *)
Definition days_before_month (month leap : Z) : Z :=
  if month =? 0 then 0
  else if month =? 1 then 31
  else if month =? 2 then 59 + leap
  else if month =? 3 then 90 + leap
  else if month =? 4 then 120 + leap
  else if month =? 5 then 151 + leap
  else if month =? 6 then 181 + leap
  else if month =? 7 then 212 + leap
  else if month =? 8 then 243 + leap
  else if month =? 9 then 273 + leap
  else if month =? 10 then 304 + leap
  else 334 + leap.

Definition MonthFromTime (t : Z) : Z :=
  let d := DayWithinYear t in
  let leap := InLeapYear t in
  if d <? 31 then 0
  else if d <? 59 + leap then 1
  else if d <? 90 + leap then 2
  else if d <? 120 + leap then 3
  else if d <? 151 + leap then 4
  else if d <? 181 + leap then 5
  else if d <? 212 + leap then 6
  else if d <? 243 + leap then 7
  else if d <? 273 + leap then 8
  else if d <? 304 + leap then 9
  else if d <? 334 + leap then 10
  else 11.

Definition DateFromTime (t : Z) : Z :=
  DayWithinYear t - days_before_month (MonthFromTime t) (InLeapYear t) + 1.

Definition HourFromTime (t : Z) : Z := (t / msPerHour) mod 24.
Definition MinFromTime (t : Z) : Z := (t / msPerMinute) mod 60.
Definition SecFromTime (t : Z) : Z := (t / msPerSecond) mod 60.
Definition msFromTime (t : Z) : Z := t mod msPerSecond.

(** The offset of local time, in milliseconds: [LocalTZA t true] for a UTC
    time [t] and [LocalTZA t false] for a local time [t]. *)
Definition Zone : Type := Z -> bool -> Z.

Definition LocalTime (zone : Zone) (t : Z) : Z := t + zone t true.
Definition UTC (zone : Zone) (t : Z) : Z := t - zone t false.

(** [MakeDay year month date] for integral [year] and [month]. *)
Definition MakeDay (year month : Z) (date : JsNum) : option Z :=
  match date with
  | Dec m k =>
      let ym := year + month / 12 in
      let mn := month mod 12 in
      Some (DayFromYear ym + days_before_month mn (DaysInYear ym - 365) + truncate m k - 1)
  | NaN | Inf _ => None
  end.

Definition MakeDate (day time : Z) : Z := day * msPerDay + time.

Definition TimeClip (t : Z) : option Z :=
  if 8640000000000000 <? Z.abs t then None else Some t.

(** [new Date()] at clock reading [now]. *)
Definition new_Date (now : Z) : option Z := TimeClip now.

(** [d.getDate()] *)
Definition getDate (zone : Zone) (tv : option Z) : JsNum :=
  match tv with
  | Some t => Int (DateFromTime (LocalTime zone t))
  | None => NaN
  end.

(** [d.setDate(date)]: the new time value of [d]. *)
Definition setDate (zone : Zone) (tv : option Z) (date : JsNum) : option Z :=
  match tv with
  | Some t =>
      let t := LocalTime zone t in
      match MakeDay (YearFromTime t) (MonthFromTime t) date with
      | Some day => TimeClip (UTC zone (MakeDate day (TimeWithinDay t)))
      | None => None
      end
  | None => None
  end.

(** [a - b], where [a] is the result of [getDate]. *)
Definition minus (a b : JsNum) : JsNum :=
  match a with
  | Dec d O => int_minus d b
  | _ => NaN
  end.

(** [n] written with exactly [width] decimal digits. *)
Fixpoint pad (width : nat) (n : Z) : string :=
  match width with
  | O => EmptyString
  | S w => pad w (n / 10) ++ String (ascii_of_nat (Z.to_nat (48 + n mod 10))) EmptyString
  end.

Definition iso_year (y : Z) : string :=
  if (0 <=? y) && (y <=? 9999) then pad 4 y
  else (if y <? 0 then "-" else "+") ++ pad 6 (Z.abs y).

(** The text [YYYY-MM-DDTHH:mm:ss.sssZ] of a time value. *)
Definition iso (t : Z) : string :=
  iso_year (YearFromTime t) ++ "-" ++ pad 2 (MonthFromTime t + 1)
  ++ "-" ++ pad 2 (DateFromTime t)
  ++ "T" ++ pad 2 (HourFromTime t) ++ ":" ++ pad 2 (MinFromTime t)
  ++ ":" ++ pad 2 (SecFromTime t) ++ "." ++ pad 3 (msFromTime t) ++ "Z".

(** [d.toISOString()] *)
Definition toISOString (tv : option Z) : Completion string :=
  match tv with
  | Some t => Normal (iso t)
  | None => Throw (RangeError "Invalid time value")
  end.

End Date.

(* ===================================================================== *)
(** * The Express integration ([integrations/express-middleware.ts]) *)
(* ===================================================================== *)

Module Express.
Import Numeric Date.

(** ** The Supabase client, as the server uses it *)

Inductive Filter : Type :=
| f_eq (column : string) (value : JsVal)
| f_gte (column : string) (value : JsVal).

(** [from(table).select(columns).<filters>.order(column, {ascending})] *)
Record Select : Type := {
  from : string;
  columns : string;
  filters : list Filter;
  order : string;
  ascending : bool
}.

(** The store behind the client, with state [S].  Awaiting a request
    either resolves to a value (the [{data, error}] answer of the store) or
    rejects, which throws at the [await]. *)
Class EventStore (S : Type) : Type := {
  insert : string -> list JsVal -> S -> Completion JsVal * S;
  select : Select -> S -> Completion JsVal * S
}.

(** A request sent to the store. *)
Inductive StoreCall : Type :=
| Insert (table : string) (rows : list JsVal)
| Query (q : Select).

Definition perform {S} `{EventStore S} (c : StoreCall) : S -> Completion JsVal * S :=
  match c with
  | Insert table rows => insert table rows
  | Query q => select q
  end.

(** What [createClient(url, key)] returns. *)
Record SupabaseClient : Type := createClient { url : string; key : string }.

(** [interface BrowserToolsConfig] *)
Record BrowserToolsConfig : Type := {
  supabaseUrl : option string;
  supabaseKey : option string;
  cfg_tableName : option string;
  cfg_enableLogging : option bool
}.

(** The fields of [class BrowserToolsExpress]; [supabaseClient] is [None]
    for the [undefined] of an instance built without credentials. *)
Record BrowserToolsExpress : Type := {
  supabaseClient : option SupabaseClient;
  tableName : string;
  enableLogging : bool
}.

Definition nonempty (s : option string) : option string :=
  match s with
  | Some (String _ _ as v) => Some v
  | _ => None
  end.

(** [constructor(config = {})] *)
Definition new_BrowserToolsExpress (config : BrowserToolsConfig) : BrowserToolsExpress :=
  {| tableName := default "browser_tools_events" (nonempty (cfg_tableName config));
     enableLogging := match cfg_enableLogging config with Some false => false | _ => true end;
     supabaseClient :=
       match nonempty (supabaseUrl config), nonempty (supabaseKey config) with
       | Some u, Some k => Some (createClient u k)
       | _, _ => None
       end |}.

(** ** The world of the server *)

Record Request : Type := { body : JsVal; query : JsVal }.

(** [res.status(status).json(payload)] *)
Record Response : Type := { status : Z; payload : JsVal }.

(** The world of a request: the console, the clock and the time zone of
    the process, the state of the store, the responses written to [res],
    and the record of the requests sent to the store (kept for the proofs:
    the program never reads it). *)
Record Server (S : Type) : Type := {
  console : list ConsoleCall;
  clock : Z;
  zone : Zone;
  database : S;
  store_log : list StoreCall;
  sent : list Response
}.
Arguments console {S} _.
Arguments clock {S} _.
Arguments zone {S} _.
Arguments database {S} _.
Arguments store_log {S} _.
Arguments sent {S} _.

Definition logged {S} (c : ConsoleCall) (w : Server S) : Server S :=
  {| console := (console w ++ [c])%list; clock := clock w; zone := zone w;
     database := database w; store_log := store_log w; sent := sent w |}.

Definition responded {S} (r : Response) (w : Server S) : Server S :=
  {| console := console w; clock := clock w; zone := zone w;
     database := database w; store_log := store_log w; sent := (sent w ++ [r])%list |}.

Definition requested {S} (c : StoreCall) (db : S) (w : Server S) : Server S :=
  {| console := console w; clock := clock w; zone := zone w;
     database := db; store_log := (store_log w ++ [c])%list; sent := sent w |}.

Section Handlers.
Context {S : Type} `{EventStore S}.

Definition print (m : ConsoleMethod) (args : list ConsoleArg) : M (Server S) unit :=
  modify (logged (Console m args)).

Definition respond (code : Z) (value : JsVal) : M (Server S) unit :=
  modify (responded {| status := code; payload := value |}).

(** [await] of a request to the store. *)
Definition await (c : StoreCall) : M (Server S) JsVal :=
  fun w => let '(answer, db) := perform c (database w) in (answer, requested c db w).

(** [new Date().toISOString()] *)
Definition now_iso : M (Server S) JsVal :=
  now ← gets clock;
  text ← lift (toISOString (new_Date now));
  ret (VStr text).

(** [timestamp || new Date().toISOString()] *)
Definition timestamp_or_now (timestamp : JsVal) : M (Server S) JsVal :=
  if truthy timestamp then ret timestamp else now_iso.

(** The [catch] block of both routes. *)
Definition internal_error (context : string) (error : JsVal) : M (Server S) unit :=
  print c_error [Val (VStr context); Val error];;
  message ← lift (get error "message");
  respond 500 (VObj [("error", message)]).

(** [router.post('/events', ...)] *)
Definition postEvents (self : BrowserToolsExpress) (req : Request) : M (Server S) unit :=
  try_catch
    (type ← lift (get (body req) "type");
     data ← lift (get (body req) "data");
     timestamp ← lift (get (body req) "timestamp");
     userId ← lift (get (body req) "userId");
     if negb (truthy type) || negb (truthy data) then
       respond 400 (VObj [("error", VStr "Tipo e dados do evento são obrigatórios")])
     else
       match supabaseClient self with
       | Some client =>
           stamp ← timestamp_or_now timestamp;
           answer ← await (Insert (tableName self)
                             [VObj [("type", type); ("data", data); ("timestamp", stamp);
                                    ("user_id", or_else userId VNull)]]);
           eventData ← lift (get answer "data");
           error ← lift (get answer "error");
           if truthy error then throw error
           else
             (if enableLogging self
              then text ← lift (template "[Browser Tools] Evento registrado: " type
                                  EmptyString);
                   print c_log [text]
              else ret tt);;
             respond 201 (VObj [("success", VBool true); ("event", eventData)])
       | None =>
           (if enableLogging self
            then text ← lift (template "[Browser Tools] Evento recebido (sem persistência): "
                                type EmptyString);
                 print c_log [text; Val data]
            else ret tt);;
           respond 200 (VObj [("success", VBool true); ("persisted", VBool false)])
       end)
    (internal_error "[Browser Tools] Erro ao registrar evento:").

(** The arrow function of [data.map] in the metrics route. *)
Definition metric (event : JsVal) : Completion JsVal :=
  match get event "id", get event "timestamp", get event "data", get event "user_id" with
  | Normal id, Normal timestamp, Normal data, Normal user_id =>
      match get data "operation", get data "duration" with
      | Normal operation, Normal duration =>
          Normal (VObj [("id", id); ("timestamp", timestamp); ("operation", operation);
                        ("duration", duration); ("userId", user_id)])
      | Throw e, _ | _, Throw e => Throw e
      end
  | Throw e, _, _, _ | _, Throw e, _, _ | _, _, Throw e, _ | _, _, _, Throw e => Throw e
  end.

(** [events.map(metric)], stopping at the first element that throws. *)
Fixpoint map_metric (events : list JsVal) : Completion (list JsVal) :=
  match events with
  | [] => Normal []
  | event :: rest =>
      match metric event with
      | Normal m => match map_metric rest with
                    | Normal ms => Normal (m :: ms)
                    | Throw e => Throw e
                    end
      | Throw e => Throw e
      end
  end.

(** [data.map(...)] for the [data] of a store answer, which is JSON. *)
Definition metrics_of (data : JsVal) : Completion JsVal :=
  match data with
  | VArr events => match map_metric events with
                   | Normal ms => Normal (VArr ms)
                   | Throw e => Throw e
                   end
  | VUndefined | VNull => Throw (TypeError "Cannot read properties of undefined or null (reading 'map')")
  | _ => Throw (TypeError "data.map is not a function")
  end.

(** [const { days = 7 } = req.query] *)
Definition days_of (query : JsVal) : Completion JsVal :=
  match get query "days" with
  | Normal VUndefined => Normal (VNum (Int 7))
  | other => other
  end.

(** [startDate] after [startDate.setDate(startDate.getDate() - number)],
    for the [startDate] that [new Date()] makes at clock reading [now]. *)
Definition days_back (zone : Zone) (now : Z) (number : JsNum) : option Z :=
  let created := new_Date now in
  setDate zone created (minus (getDate zone created) number).

(** The query of the metrics route for the cut-off [since]. *)
Definition performance_since (table since : string) : Select :=
  {| from := table; columns := "*";
     filters := [f_eq "type" (VStr "performance"); f_gte "timestamp" (VStr since)];
     order := "timestamp"; ascending := false |}.

(** [router.get('/metrics/performance', ...)] *)
Definition getMetricsPerformance (self : BrowserToolsExpress) (req : Request) : M (Server S) unit :=
  try_catch
    (match supabaseClient self with
     | None => respond 503 (VObj [("error", VStr "Supabase não configurado")])
     | Some client =>
         days ← lift (days_of (query req));
         now ← gets clock;
         tz ← gets zone;
         number ← lift (ToNumber days);
         since ← lift (toISOString (days_back tz now number));
         answer ← await (Query (performance_since (tableName self) since));
         data ← lift (get answer "data");
         error ← lift (get answer "error");
         if truthy error then throw error
         else
           metrics ← lift (metrics_of data);
           respond 200 metrics
     end)
    (internal_error "[Browser Tools] Erro ao obter métricas de performance:").

(** [router.get('/status', ...)] *)
Definition getStatus (self : BrowserToolsExpress) (req : Request) : M (Server S) unit :=
  respond 200 (VObj [("enabled", VBool true);
                     ("version", VStr "1.0.0");
                     ("supabase", VBool (bool_decide (is_Some (supabaseClient self))));
                     ("features", VArr [VStr "performance-monitoring";
                                        VStr "compatibility-check";
                                        VStr "event-logging"])]).

(** [userId || null] for [userId?: string] *)
Definition user_or_null (userId : option string) : JsVal :=
  match nonempty userId with
  | Some u => VStr u
  | None => VNull
  end.

(** [logEvent(type, data, userId?)] *)
Definition logEvent (self : BrowserToolsExpress) (type : string) (data : JsVal)
    (userId : option string) : M (Server S) bool :=
  match supabaseClient self with
  | None =>
      (if enableLogging self
       then print c_log [Val (VStr ("[Browser Tools] Evento do servidor (sem persistência): "
                                      ++ type));
                         Val data]
       else ret tt);;
      ret false
  | Some client =>
      try_catch
        (stamp ← now_iso;
         answer ← await (Insert (tableName self)
                           [VObj [("type", VStr type); ("data", data); ("timestamp", stamp);
                                  ("user_id", user_or_null userId)]]);
         error ← lift (get answer "error");
         if truthy error then
           print c_error [Val (VStr "[Browser Tools] Erro ao registrar evento do servidor:");
                          Val error];;
           ret false
         else
           (if enableLogging self
            then print c_log [Val (VStr ("[Browser Tools] Evento do servidor registrado: "
                                           ++ type))]
            else ret tt);;
           ret true)
        (fun error =>
           print c_error [Val (VStr "[Browser Tools] Erro ao registrar evento do servidor:");
                          Val error];;
           ret false)
  end.

End Handlers.

(** ** Vocabulary of the properties *)

(** The time value of [startDate] where the metrics route reads it, for the
    [days] of the request: [None] for an invalid date, and where
    [Number(days)] throws, which leaves no date to read. *)
Definition startDate (zone : Zone) (now : Z) (days : JsVal) : option Z :=
  match ToNumber days with
  | Normal number => days_back zone now number
  | Throw _ => None
  end.

(** The value [v] is an object (or a primitive) without property [k]. *)
Definition lacks (v : JsVal) (k : string) : Prop := get v k = Normal VUndefined.

Definition bad_request : Response :=
  {| status := 400;
     payload := VObj [("error", VStr "Tipo e dados do evento são obrigatórios")] |}.

Definition accepted_not_persisted : Response :=
  {| status := 200; payload := VObj [("success", VBool true); ("persisted", VBool false)] |}.

Definition unavailable : Response :=
  {| status := 503; payload := VObj [("error", VStr "Supabase não configurado")] |}.

(** [v.k] for a value [v] that has properties. *)
Definition field (v : JsVal) (k : string) : JsVal :=
  match get v k with
  | Normal x => x
  | Throw _ => VUndefined
  end.

(** The metric of a record: [operation] and [duration] are those of its
    nested [data]. *)
Definition projection (event : JsVal) : JsVal :=
  VObj [("id", field event "id");
        ("timestamp", field event "timestamp");
        ("operation", field (field event "data") "operation");
        ("duration", field (field event "data") "duration");
        ("userId", field event "user_id")].

(** A record whose [data] can be read into. *)
Definition has_payload (event : JsVal) : Prop :=
  nullish event = false /\ nullish (field event "data") = false.

(** The request [logEvent] sends to the store. *)
Definition server_insert (self : BrowserToolsExpress) (type : string) (data : JsVal)
    (userId : option string) (stamp : string) : StoreCall :=
  Insert (tableName self)
    [VObj [("type", VStr type); ("data", data); ("timestamp", VStr stamp);
           ("user_id", user_or_null userId)]].

Definition server_failure (error : JsVal) : ConsoleCall :=
  Console c_error [Val (VStr "[Browser Tools] Erro ao registrar evento do servidor:");
                   Val error].

Section Logging.
Context {S : Type} `{EventStore S}.

(** The store takes the record of [logEvent]: the request resolves with an
    answer whose [error] is falsy. *)
Definition accepted (self : BrowserToolsExpress) (type : string) (data : JsVal)
    (userId : option string) (w : Server S) : Prop :=
  exists client stamp answer db error,
    supabaseClient self = Some client
    /\ toISOString (new_Date (clock w)) = Normal stamp
    /\ perform (server_insert self type data userId stamp) (database w) = (Normal answer, db)
    /\ get answer "error" = Normal error
    /\ truthy error = false.

(** The store fails on the record of [logEvent] with [e]: the request
    rejects with [e], or resolves with the truthy [error] [e]. *)
Definition refused (self : BrowserToolsExpress) (type : string) (data : JsVal)
    (userId : option string) (w : Server S) (e : JsVal) : Prop :=
  exists client stamp,
    supabaseClient self = Some client
    /\ toISOString (new_Date (clock w)) = Normal stamp
    /\ ((exists db, perform (server_insert self type data userId stamp) (database w)
                    = (Throw e, db))
        \/ (exists answer db,
              perform (server_insert self type data userId stamp) (database w)
              = (Normal answer, db)
              /\ get answer "error" = Normal e /\ truthy e = true)).

End Logging.

End Express.

(* ===================================================================== *)
(** * Concrete pages, hosts and stores, for running the definitions *)
(* ===================================================================== *)

Module Samples.
Import Registry Express.

(** ** A page *)

(** Four function objects: 0 answers ["A"], 1 answers ["B"], 2 throws, and
    3 writes to the console and answers [42]. *)
Definition sample_functions : FunctionObjects :=
  fun f args =>
    match f with
    | 0%nat => ret (VStr "A")
    | 1%nat => ret (VStr "B")
    | 2%nat => throw (mkError "Error" "boom")
    | 3%nat => Registry.print c_log [Val (VStr "working")];; ret (VNum (Int 42))
    | _ => ret VUndefined
    end.

Definition toolA : BrowserTool := Tool "inspect" "first version" 0.
Definition toolB : BrowserTool := Tool "inspect" "second version" 1.
Definition toolC : BrowserTool := Tool "fragile" "always fails" 2.

Definition present (names : list string) (p : string) : Completion JsVal :=
  if existsb (String.eqb p) names then Normal (VObj []) else Normal VUndefined.

(** A browser with every capability. *)
Definition modern_host : Host :=
  {| window := Some (present ["localStorage"; "sessionStorage"; "WebSocket";
                              "WebGLRenderingContext"; "RTCPeerConnection"]);
     navigator := Some (String.eqb "serviceWorker");
     document := Some (fun tag => Normal (fun kind => Normal (VObj []))) |}.

(** A page whose storage is blocked: reading [window.localStorage] raises a
    [SecurityError], as browsers do for sandboxed or cookie-less frames. *)
Definition locked_host : Host :=
  {| window := Some (fun p => if String.eqb p "localStorage"
                              then Throw (mkError "SecurityError" "The operation is insecure.")
                              else present ["WebSocket"; "RTCPeerConnection"] p);
     navigator := Some (String.eqb "serviceWorker");
     document := Some (fun tag => Normal (fun kind => Normal VNull)) |}.

(** A host with a bare [window] and [navigator] and no [document]. *)
Definition bare_host : Host :=
  {| window := Some (present []);
     navigator := Some (fun p => false);
     document := None |}.

Definition page (env : JsVal) (h : Host) : Browser :=
  {| tools := ∅; Registry.console := []; calls := []; NODE_ENV := env; host := h |}.

(** ** A store in memory *)

Inductive Outage : Type :=
| answers_error (e : JsVal)
| rejects (e : JsVal).

(** Modelled from the spec: the external event store, a collaborator of the
    repository reached through the Supabase client.  It keeps the inserted
    records, answers [{data, error}], selects by the filters of the query
    and orders by the requested column; timestamps are ISO-8601 texts and
    compare as such.  During an [outage] every request fails, either with
    an error answer or by rejecting. *)
Record MemStore : Type := {
  records : list (string * JsVal);
  outage : option Outage
}.

Definition answer (data error : JsVal) : JsVal := VObj [("data", data); ("error", error)].

Definition text_of (row : JsVal) (column : string) : string :=
  match get row column with
  | Normal (VStr s) => s
  | _ => EmptyString
  end.

Definition matches (row : JsVal) (f : Filter) : bool :=
  match f with
  | f_eq column (VStr v) => String.eqb (text_of row column) v
  | f_gte column (VStr v) => String.leb v (text_of row column)
  | _ => false
  end.

Fixpoint place (before : JsVal -> JsVal -> bool) (x : JsVal) (l : list JsVal) : list JsVal :=
  match l with
  | [] => [x]
  | y :: rest => if before x y then x :: l else y :: place before x rest
  end.

Definition sort_rows (before : JsVal -> JsVal -> bool) (l : list JsVal) : list JsVal :=
  fold_right (place before) [] l.

Definition before_by (column : string) (ascending : bool) (a b : JsVal) : bool :=
  if ascending then String.leb (text_of a column) (text_of b column)
  else String.leb (text_of b column) (text_of a column).

Definition rows_of (table : string) (st : MemStore) : list JsVal :=
  map snd (List.filter (fun r => String.eqb (fst r) table) (records st)).

Definition selected (q : Select) (st : MemStore) : list JsVal :=
  sort_rows (before_by (order q) (ascending q))
    (List.filter (fun row => forallb (matches row) (filters q)) (rows_of (from q) st)).

Definition failing (o : Outage) : Completion JsVal :=
  match o with
  | answers_error e => Normal (answer VNull e)
  | rejects e => Throw e
  end.

#[export] Instance mem_store : EventStore MemStore := {
  insert table rows st :=
    match outage st with
    | Some o => (failing o, st)
    | None => (Normal (answer VNull VNull),
               {| records := (records st ++ map (pair table) rows)%list; outage := None |})
    end;
  select q st :=
    match outage st with
    | Some o => (failing o, st)
    | None => (Normal (answer (VArr (selected q st)) VNull), st)
    end
}.

Definition event (id : Z) (type stamp : string) (data : JsVal) : string * JsVal :=
  ("browser_tools_events",
   VObj [("id", VNum (Int id)); ("type", VStr type); ("data", data);
         ("timestamp", VStr stamp); ("user_id", VNull)]).

Definition timing (operation : string) (duration : Z) : JsVal :=
  VObj [("operation", VStr operation); ("duration", VNum (Int duration))].

(** Two performance records, a week apart from each other, and a click. *)
Definition three_events : MemStore :=
  {| records := [event 1 "performance" "2024-03-14T09:30:00.000Z" (timing "render" 12);
                 event 2 "performance" "2024-01-01T00:00:00.000Z" (timing "load" 340);
                 event 3 "click" "2024-03-15T08:00:00.000Z" (VObj [("x", VNum (Int 1))]);
                 event 4 "performance" "2024-03-15T10:00:00.000Z" (timing "paint" 7)];
     outage := None |}.

Definition down (o : Outage) : MemStore := {| records := []; outage := Some o |}.

Definition utc : Date.Zone := fun _ _ => 0.

(** A server process on 2024-03-15 at 12:00:00.123 UTC. *)
Definition server (db : MemStore) : Server MemStore :=
  {| Express.console := []; clock := 1710504000123; zone := utc; database := db;
     store_log := []; sent := [] |}.

Definition no_config : BrowserToolsConfig :=
  {| supabaseUrl := None; supabaseKey := None; cfg_tableName := None; cfg_enableLogging := None |}.

Definition with_credentials : BrowserToolsConfig :=
  {| supabaseUrl := Some "https://project.supabase.co"; supabaseKey := Some "service-key";
     cfg_tableName := None; cfg_enableLogging := Some false |}.

Definition unconfigured : BrowserToolsExpress := new_BrowserToolsExpress no_config.
Definition configured : BrowserToolsExpress := new_BrowserToolsExpress with_credentials.

Definition post (fields : list (string * JsVal)) : Request :=
  {| body := VObj fields; query := VObj [] |}.

Definition get_days (days : list (string * JsVal)) : Request :=
  {| body := VUndefined; query := VObj days |}.

(** The records the store holds in [table] that the metrics query asks
    for. *)
Definition recent_performance (table since : string) (st : MemStore) : list JsVal :=
  List.filter (fun row => String.eqb (text_of row "type") "performance"
                          && String.leb since (text_of row "timestamp"))
    (rows_of table st).

(** ** Worlds and requests of the runs *)

Definition production : Browser := page (VStr "production") modern_host.

Definition fragile_page : Browser := (registerTool toolC production).2.
Definition after_boom : Browser :=
  set_calls (fun cs => (cs ++ [(2%nat, [VNull])])%list) fragile_page.

Definition click : Request := post [("type", VStr "click"); ("data", VObj [("x", VNum (Int 1))])].

Definition a_week_ago : Z := 1710504000123 - 7 * 86400000.

End Samples.

(* ===================================================================== *)
(** * The rest of the registry: listing, default tools, construction *)
(* ===================================================================== *)

Module Catalogue.
Import Registry.

(** ** The [Map] of the registry, in insertion order *)

Definition Entries : Type := list (string * BrowserTool).

(** [map.set(k, v)]: a key that is present keeps its place and takes the
    new value; a new key goes to the end. *)
Fixpoint map_set (k : string) (v : BrowserTool) (m : Entries) : Entries :=
  match m with
  | [] => [(k, v)]
  | (k', v') :: rest =>
      if String.eqb k k' then (k, v) :: rest else (k', v') :: map_set k v rest
  end.

(** [map.get(k)] *)
Fixpoint map_get (k : string) (m : Entries) : option BrowserTool :=
  match m with
  | [] => None
  | (k', v) :: rest => if String.eqb k k' then Some v else map_get k rest
  end.

(** [this.tools.set(tool.name, tool)], the effect of [registerTool] on the
    map. *)
Definition enter (m : Entries) (tool : BrowserTool) : Entries :=
  map_set (name tool) tool m.

(** The map after [registerTool] of each tool of [ts] in turn. *)
Definition entered (m : Entries) (ts : list BrowserTool) : Entries :=
  fold_left enter ts m.

(** The same map without its order, as the world of the page keeps it. *)
Definition contents (m : Entries) : gmap string BrowserTool := list_to_map m.

(** [listTools()]: name and description of every value of the map. *)
Definition listTools (m : Entries) : list (string * string) :=
  map (fun entry => (name (snd entry), description (snd entry))) m.

(** The map of a registry is keyed by the names of its tools, one entry a
    name. *)
Definition keyed (m : Entries) : Prop :=
  NoDup (map fst m) /\ Forall (fun entry => fst entry = name (snd entry)) m.

(** [registerTool] of each tool of [ts] in turn. *)
Fixpoint register_all (ts : list BrowserTool) : M Browser unit :=
  match ts with
  | [] => ret tt
  | tool :: rest => registerTool tool;; register_all rest
  end.

(** ** The default tools *)

(** The function objects that [registerDefaultTools] creates. *)
Record DefaultFunctions : Type := {
  debugState_fn : nat;
  measurePerformance_fn : nat;
  exportData_fn : nat;
  checkBrowserCompatibility_fn : nat;
  syncWithSupabase_fn : nat
}.

Definition debugState_tool (fns : DefaultFunctions) : BrowserTool :=
  Tool "debugState" "Exibe o estado atual de um componente no console" (debugState_fn fns).
Definition measurePerformance_tool (fns : DefaultFunctions) : BrowserTool :=
  Tool "measurePerformance" "Mede o tempo de execução de uma função" (measurePerformance_fn fns).
Definition exportData_tool (fns : DefaultFunctions) : BrowserTool :=
  Tool "exportData" "Exporta dados para um arquivo JSON" (exportData_fn fns).
Definition checkBrowserCompatibility_tool (fns : DefaultFunctions) : BrowserTool :=
  Tool "checkBrowserCompatibility"
       "Verifica a compatibilidade do navegador com recursos necessários"
       (checkBrowserCompatibility_fn fns).
Definition syncWithSupabase_tool (fns : DefaultFunctions) : BrowserTool :=
  Tool "syncWithSupabase" "Sincroniza dados com o Supabase" (syncWithSupabase_fn fns).

(** [registerDefaultTools()]; [client] tells whether [this.supabaseClient]
    is set. *)
Definition registerDefaultTools (fns : DefaultFunctions) (client : bool) : M Browser unit :=
  registerTool (debugState_tool fns);;
  registerTool (measurePerformance_tool fns);;
  registerTool (exportData_tool fns);;
  registerTool (checkBrowserCompatibility_tool fns);;
  if client then registerTool (syncWithSupabase_tool fns) else ret tt.

(** [supabaseUrl && supabaseKey] for two optional strings. *)
Definition credentials (supabaseUrl supabaseKey : option string) : bool :=
  match supabaseUrl, supabaseKey with
  | Some (String _ _), Some (String _ _) => true
  | _, _ => false
  end.

(** [constructor(supabaseUrl?, supabaseKey?)] of [BrowserToolsMCP], building
    the instance whose map the page holds. *)
Definition new_BrowserToolsMCP (fns : DefaultFunctions)
    (supabaseUrl supabaseKey : option string) : M Browser unit :=
  modify (set_tools (fun _ => ∅));;
  registerDefaultTools fns (credentials supabaseUrl supabaseKey).

(** The tools of a new instance, in the order of their registration. *)
Definition default_tools (fns : DefaultFunctions) (client : bool) : list BrowserTool :=
  ([debugState_tool fns; measurePerformance_tool fns; exportData_tool fns;
    checkBrowserCompatibility_tool fns]
   ++ (if client then [syncWithSupabase_tool fns] else []))%list.

(** The [execute] of the default tool [debugState]. *)
Definition debugState_execute (args : list JsVal) : M Browser JsVal :=
  let state := hd VUndefined args in
  print c_group [Val (VStr "Estado do Componente")];;
  print c_log [Val state];;
  print c_groupEnd [];;
  ret state.

(** What the [debugState] tool writes for [state]. *)
Definition inspection (state : JsVal) : list ConsoleCall :=
  [Console c_group [Val (VStr "Estado do Componente")];
   Console c_log [Val state];
   Console c_groupEnd []].

(** What the facade adds around it for a label. *)
Definition label_group (label : option string) : list ConsoleCall :=
  if truthy (Hooks.label_value label)
  then [Console c_group [Val (VStr ("Estado do Componente: " ++ default EmptyString label))]]
  else [].

Definition label_groupEnd (label : option string) : list ConsoleCall :=
  if truthy (Hooks.label_value label) then [Console c_groupEnd []] else [].

Definition printed (entries : list ConsoleCall) (w : Browser) : Browser :=
  set_console (fun out => (out ++ entries)%list) w.

Definition called (f : nat) (args : list JsVal) (w : Browser) : Browser :=
  set_calls (fun cs => (cs ++ [(f, args)])%list) w.

(** The graphics check finds a context: the canvas is created, the page
    has a truthy [WebGLRenderingContext], and [getContext] answers a truthy
    context for ['webgl'] or, after a falsy answer, for
    ['experimental-webgl']. *)
Definition has_webGL (h : Host) : Prop :=
  exists create win canvas ctor,
    document h = Some create /\ create "canvas" = Normal canvas
    /\ window h = Some win /\ win "WebGLRenderingContext" = Normal ctor
    /\ truthy ctor = true
    /\ ((exists ctx, canvas "webgl" = Normal ctx /\ truthy ctx = true)
        \/ (exists ctx ctx', canvas "webgl" = Normal ctx /\ truthy ctx = false
                             /\ canvas "experimental-webgl" = Normal ctx'
                             /\ truthy ctx' = true)).

(** The probe cannot read the host: there is no [window], or reading one of
    the first three properties it checks throws. *)
Definition unreadable (h : Host) : Prop :=
  window h = None
  \/ exists win p e, window h = Some win
                     /\ In p ["localStorage"; "sessionStorage"; "WebSocket"]
                     /\ win p = Throw e.

Section WithFunctions.
Context `{FunctionObjects}.

(** The function table runs these bodies for the default tools. *)
Definition runs_debugState (fns : DefaultFunctions) : Prop :=
  forall args, fn_body (debugState_fn fns) args = debugState_execute args.

Definition runs_probe (fns : DefaultFunctions) : Prop :=
  forall args, fn_body (checkBrowserCompatibility_fn fns) args
               = Registry.checkBrowserCompatibility.

End WithFunctions.

(** ** Worlds of the runs *)

Definition default_functions : DefaultFunctions :=
  {| debugState_fn := 10; measurePerformance_fn := 11; exportData_fn := 12;
     checkBrowserCompatibility_fn := 13; syncWithSupabase_fn := 14 |}.

(** The functions of [Samples.sample_functions], with the bodies of the two
    default tools embedded here at their identities. *)
Definition page_functions : FunctionObjects :=
  fun f args =>
    match f with
    | 10%nat => debugState_execute args
    | 13%nat => Registry.checkBrowserCompatibility
    | _ => Samples.sample_functions f args
    end.

Definition fresh_page (env : JsVal) (h : Host) : Browser :=
  (new_BrowserToolsMCP default_functions None None (Samples.page env h)).2.

Definition development_page : Browser := fresh_page (VStr "development") Samples.modern_host.

(** A page in development mode whose registry is empty. *)
Definition bare_development : Browser := Samples.page (VStr "development") Samples.modern_host.

(** A host without a [window], as a server that renders the page. *)
Definition server_side_host : Host :=
  {| window := None; navigator := None; document := None |}.

End Catalogue.

(* ===================================================================== *)
(** * Vocabulary for the other paths of the Express integration *)
(* ===================================================================== *)

Module Intake.
Import Numeric Date Express.

(** The record that the events route sends to the store. *)
Definition client_record (type data stamp userId : JsVal) : JsVal :=
  VObj [("type", type); ("data", data); ("timestamp", stamp);
        ("user_id", or_else userId VNull)].

(** The time stamp of that record: the one of the client when it is
    truthy, the text of the clock otherwise. *)
Definition stamp_at (now : Z) (timestamp : JsVal) : JsVal :=
  if truthy timestamp then timestamp else VStr (iso now).

(** [res.status(201).json({ success: true, event })] *)
Definition created (eventData : JsVal) : Response :=
  {| status := 201; payload := VObj [("success", VBool true); ("event", eventData)] |}.

(** [res.status(500).json({ error: error.message })] *)
Definition failed (error : JsVal) : Response :=
  {| status := 500; payload := VObj [("error", field error "message")] |}.

Definition events_failure (error : JsVal) : ConsoleCall :=
  Console c_error [Val (VStr "[Browser Tools] Erro ao registrar evento:"); Val error].

Definition metrics_failure (error : JsVal) : ConsoleCall :=
  Console c_error [Val (VStr "[Browser Tools] Erro ao obter métricas de performance:");
                   Val error].

Definition events_notice (type : JsVal) : ConsoleCall :=
  Console c_log [Template "[Browser Tools] Evento registrado: " type EmptyString].

(** The answer of the status route. *)
Definition status_report (supabase : bool) : Response :=
  {| status := 200;
     payload := VObj [("enabled", VBool true);
                      ("version", VStr "1.0.0");
                      ("supabase", VBool supabase);
                      ("features", VArr [VStr "performance-monitoring";
                                         VStr "compatibility-check";
                                         VStr "event-logging"])] |}.

(** The configuration names a store: both credentials are non-empty. *)
Definition names_a_store (config : BrowserToolsConfig) : bool :=
  match nonempty (supabaseUrl config), nonempty (supabaseKey config) with
  | Some _, Some _ => true
  | _, _ => false
  end.

(** The [days] of a query string that gives the parameter more than once,
    or with a bracketed key. *)
Definition repeated_or_nested (days : JsVal) : Prop :=
  (exists a b rest, days = VArr (a :: b :: rest)) \/ (exists props, days = VObj props).

Section Failures.
Context {S : Type} `{EventStore S}.

(** The store fails the request [c] with [e]: it rejects with a reason [e]
    that is not [null] or [undefined], or it answers with the truthy
    [error] [e]. *)
Definition store_fails (c : StoreCall) (st : S) (db : S) (e : JsVal) : Prop :=
  (perform c st = (Throw e, db) /\ nullish e = false)
  \/ (exists answer, perform c st = (Normal answer, db)
                     /\ get answer "error" = Normal e /\ truthy e = true).

(** The store rejects the request [c] with [null] or [undefined]. *)
Definition rejects_without_reason (c : StoreCall) (st : S) : Prop :=
  exists e db, perform c st = (Throw e, db) /\ nullish e = true.

End Failures.

(** ** Requests and worlds of the runs *)

Definition stamped_click : Request :=
  Samples.post [("type", VStr "click"); ("data", VObj [("x", VNum (Int 1))]);
                ("timestamp", VStr "2024-03-01T00:00:00.000Z"); ("userId", VStr "u1")].

Definition denied : JsVal := mkError "PostgrestError" "permission denied".

Definition bare_config : BrowserToolsConfig :=
  {| supabaseUrl := Some "https://project.supabase.co"; supabaseKey := Some EmptyString;
     cfg_tableName := Some EmptyString; cfg_enableLogging := None |}.

(** A store that holds one performance record without [data]. *)
Definition broken_record : Samples.MemStore :=
  {| Samples.records := [Samples.event 9 "performance" "2024-03-15T11:00:00.000Z" VNull];
     Samples.outage := None |}.

(** A request that reaches the routes without a parsed body, as every
    request does in an application that installs no body parser. *)
Definition bodiless : Request := {| body := VUndefined; query := VObj [] |}.

(** The event of the JSON text [{"type": {"toString": 1}, "data": {"x": 1}}]:
    its [type] is an object with a [toString] of its own. *)
Definition shadowed_type : Request :=
  Samples.post [("type", VObj [("toString", VNum (Int 1))]);
                ("data", VObj [("x", VNum (Int 1))])].

(** The local time of New York in March 2024: five hours behind UTC until
    the 10th at 07:00 UTC, four hours behind from then on; the local times
    that the change skips count as before it. *)
Definition new_york : Zone :=
  fun t utc =>
    let change := 1710054000000 in
    if t <? (if utc then change else change - 14400000) then -18000000 else -14400000.

(** The sample server process, in the zone [tz]. *)
Definition server_in (tz : Zone) (db : Samples.MemStore) : Server Samples.MemStore :=
  {| Express.console := []; clock := 1710504000123; zone := tz; database := db;
     store_log := []; sent := [] |}.

End Intake.

(* ===================================================================== *)
(** * Properties of the registry, the probe and the facade *)
(* ===================================================================== *)

(** Runs the monadic plumbing of a statement. *)
Ltac run :=
  unfold mbind, mret, M_bind, M_ret, bind, ret, throw, try_catch, lift, gets, modify in *.

Module RegistryProps.
Import Registry Hooks Samples.

Section WithFunctions.
Context `{FunctionObjects}.

(** Registration always completes; it stores the tool under its name and
    writes the notice, after a warning when the name was taken. *)
Lemma registerTool_run (tool : BrowserTool) (w : Browser) :
  registerTool tool w =
    (Normal tt,
     {| tools := <[name tool := tool]> (tools w);
        Registry.console :=
          (Registry.console w
             ++ (if bool_decide (is_Some (tools w !! name tool)) then [warning tool] else [])
             ++ [success tool])%list;
        calls := calls w; NODE_ENV := NODE_ENV w; host := host w |}).
Proof.
  unfold registerTool, Registry.print. run.
  destruct (bool_decide (is_Some (tools w !! name tool))); cbn;
    unfold set_tools, set_console; cbn; [rewrite <- app_assoc|]; reflexivity.
Qed.

(** A registered tool is called, and its failure reported and rethrown. *)
Lemma executeTool_found (tool : BrowserTool) (id : string) (args : list JsVal) (w : Browser) :
  tools w !! id = Some tool ->
  executeTool id args w =
    match fn_body (execute tool) args (set_calls (fun cs => (cs ++ [(execute tool, args)])%list) w) with
    | (Normal v, w') => (Normal v, w')
    | (Throw e, w') => (Throw e, set_console (fun out => (out ++ [failure id e])%list) w')
    end.
Proof.
  intros Hfound. unfold executeTool, call, report_and_rethrow, Registry.print. run.
  rewrite Hfound. cbn.
  destruct (fn_body _ _ _) as [[v|e] w']; reflexivity.
Qed.

(** C1.  For tools [A] and [B] with the same name, registering [A] and then
    [B] leaves [B] under that name: the second registration completes
    normally after a warning on the console, the earlier entry is replaced,
    and a later [executeTool] of the name calls the executable of [B] on the
    arguments it was given (reporting and rethrowing what it throws). *)
Theorem registerTool_replaces (A B : BrowserTool) (args : list JsVal) (w : Browser) :
  name A = name B ->
  let w1 := (registerTool A w).2 in
  let w2 := (registerTool B w1).2 in
  (registerTool B w1).1 = Normal tt
  /\ Registry.console w2 = (Registry.console w1 ++ [warning B; success B])%list
  /\ tools w2 = <[name B := B]> (tools w)
  /\ executeTool (name A) args w2 =
       match fn_body (execute B) args
               (set_calls (fun cs => (cs ++ [(execute B, args)])%list) w2) with
       | (Normal v, w3) => (Normal v, w3)
       | (Throw e, w3) =>
           (Throw e, set_console (fun out => (out ++ [failure (name A) e])%list) w3)
       end.
Proof.
  intros Hname w1 w2. subst w2.
  assert (Htaken : tools w1 !! name B = Some A).
  { subst w1. rewrite registerTool_run. cbn [snd tools].
    rewrite Hname. apply lookup_insert_eq. }
  rewrite (registerTool_run B w1).
  rewrite bool_decide_true by (rewrite Htaken; eexists; reflexivity).
  cbn [fst snd tools Registry.console].
  split; [reflexivity|]. split; [reflexivity|]. split.
  - subst w1. rewrite registerTool_run. cbn [snd tools].
    rewrite Hname. apply insert_insert_eq.
  - apply executeTool_found. cbn [tools].
    rewrite Hname. apply lookup_insert_eq.
Qed.

(** C2.  For a name that the registry does not hold, [executeTool] throws
    the not-found error, whose message quotes the requested name, and leaves
    the world as it was: the tools are unchanged and no function was
    called. *)
Theorem executeTool_unknown (id : string) (args : list JsVal) (w : Browser) :
  tools w !! id = None ->
  executeTool id args w = (Throw (notFound id), w)
  /\ get (notFound id) "message"
     = Normal (VStr ("Ferramenta " ++ dq ++ id ++ dq ++ " não encontrada."))
  /\ forall w', (executeTool id args w).2 = w' -> tools w' = tools w /\ calls w' = calls w.
Proof.
  intros Habsent.
  assert (E : executeTool id args w = (Throw (notFound id), w)).
  { unfold executeTool. run. rewrite Habsent. reflexivity. }
  split; [exact E|]. split; [reflexivity|].
  intros w' <-. rewrite E. split; reflexivity.
Qed.


(** ** The capability probe *)

(** The graphics probe answers a boolean whatever the host does. *)
Lemma probe_webGL_total (w : Browser) : exists b, probe_webGL w = (Normal b, w).
Proof.
  unfold probe_webGL, createElement, window_read. run. cbn.
  destruct (document (host w)) as [create|]; [|eauto].
  destruct (create "canvas") as [canvas|e]; [|eauto].
  destruct (window (host w)) as [win|]; [|eauto].
  destruct (win "WebGLRenderingContext") as [ctor|e]; [|eauto].
  destruct (truthy ctor); [|eauto].
  destruct (canvas "webgl") as [webgl|e]; [|eauto].
  destruct (truthy webgl); [eauto|].
  destruct (canvas "experimental-webgl") as [experimental|e]; eauto.
Qed.

Lemma window_read_value (w : Browser) (win : string -> Completion JsVal) (p : string) (v : JsVal) :
  window (host w) = Some win -> win p = Normal v -> window_read p w = (Normal v, w).
Proof. intros Hwin Hp. unfold window_read. run. cbn. rewrite Hwin, Hp. reflexivity. Qed.

Lemma probe_webRTC_total (w : Browser) (win : string -> Completion JsVal) :
  window (host w) = Some win ->
  (forall p, In p plain_checks -> exists v, win p = Normal v) ->
  exists v, probe_webRTC w = (Normal v, w).
Proof.
  intros Hwin Hreads.
  destruct (Hreads "RTCPeerConnection") as [a Ha]; [cbn; tauto|].
  destruct (Hreads "webkitRTCPeerConnection") as [b Hb]; [cbn; tauto|].
  destruct (Hreads "mozRTCPeerConnection") as [c Hc]; [cbn; tauto|].
  unfold probe_webRTC.
  change (exists v, bind (window_read "RTCPeerConnection")
            (fun standard => if truthy standard then ret standard
               else bind (window_read "webkitRTCPeerConnection")
                      (fun webkit => if truthy webkit then ret webkit
                                     else window_read "mozRTCPeerConnection")) w
          = (Normal v, w)).
  unfold bind at 1. rewrite (window_read_value w win _ a) by assumption.
  destruct (truthy a); [eexists; reflexivity|].
  unfold bind. rewrite (window_read_value w win _ b) by assumption.
  destruct (truthy b); [eexists; reflexivity|].
  rewrite (window_read_value w win _ c) by assumption. eexists; reflexivity.
Qed.

(** C8, as the code has it.  On every host that declares [window] and
    [navigator] and whose [window] lets the probe read the properties it
    checks outside a [try], the probe completes normally with an object of
    exactly the six capability names, each bound to a boolean, and writes
    that object to the console; the canvas and its contexts may be absent,
    or throw, without changing this. *)
Theorem probe_answers_six_booleans (w : Browser)
    (win : string -> Completion JsVal) (nav : string -> bool) :
  window (host w) = Some win ->
  navigator (host w) = Some nav ->
  (forall p, In p plain_checks -> exists v, win p = Normal v) ->
  exists b1 b2 b3 b4 b5 b6,
    Registry.checkBrowserCompatibility w
    = (Normal (features b1 b2 b3 b4 b5 b6),
       set_console (fun out => (out ++ [Console c_table [Val (features b1 b2 b3 b4 b5 b6)]])%list) w).
Proof.
  intros Hwin Hnav Hreads.
  destruct (Hreads "localStorage") as [l Hl]; [cbn; tauto|].
  destruct (Hreads "sessionStorage") as [s Hs]; [cbn; tauto|].
  destruct (Hreads "WebSocket") as [k Hk]; [cbn; tauto|].
  destruct (probe_webGL_total w) as [g Hg].
  destruct (probe_webRTC_total w win Hwin Hreads) as [r Hr].
  exists (truthy l), (truthy s), (truthy k), (nav "serviceWorker"), g, (truthy r).
  unfold Registry.checkBrowserCompatibility, mbind, M_bind, bind.
  rewrite (window_read_value w win _ l), (window_read_value w win _ s),
    (window_read_value w win _ k) by assumption.
  unfold in_navigator at 1. unfold mbind, M_bind, bind, gets, mret, M_ret, ret.
  rewrite Hnav, Hg, Hr. reflexivity.
Qed.

(** ** The facade outside development mode *)


End WithFunctions.

(** ** Runs on the sample page *)

Lemma registerTool_replaces_witness :
  name toolA = name toolB
  /\ (executeTool (H := sample_functions) "inspect" []
        (registerTool toolB (registerTool toolA production).2).2).1
     = Normal (VStr "B").
Proof.
  split; [reflexivity|].
  destruct (registerTool_replaces (H := sample_functions) toolA toolB [] production eq_refl)
    as (_ & _ & _ & E).
  cbn [name toolA] in E. rewrite E. reflexivity.
Defined.

Lemma executeTool_unknown_witness :
  tools production !! "nonexistent" = None
  /\ executeTool (H := sample_functions) "nonexistent" [VNum (Int 1)] production
     = (Throw (notFound "nonexistent"), production).
Proof.
  split; [reflexivity|].
  apply (executeTool_unknown (H := sample_functions) "nonexistent" [VNum (Int 1)] production).
  reflexivity.
Defined.


Lemma probe_answers_six_booleans_witness :
  window (host (page VUndefined bare_host)) = Some (present [])
  /\ exists b1 b2 b3 b4 b5 b6,
       (Registry.checkBrowserCompatibility (page VUndefined bare_host)).1
       = Normal (features b1 b2 b3 b4 b5 b6).
Proof.
  split; [reflexivity|].
  destruct (probe_answers_six_booleans (page VUndefined bare_host) (present []) (fun p => false)
              eq_refl eq_refl) as (b1 & b2 & b3 & b4 & b5 & b6 & E).
  - intros p _. exists VUndefined. reflexivity.
  - exists b1, b2, b3, b4, b5, b6. rewrite E. reflexivity.
Defined.

(** C8, as stated, fails: on a page whose storage is blocked the first
    check throws, and so does the probe, before anything is printed. *)
Lemma probe_throws_on_locked_storage :
  Registry.checkBrowserCompatibility (page (VStr "production") locked_host)
  = (Throw (mkError "SecurityError" "The operation is insecure."),
     page (VStr "production") locked_host).
Proof. reflexivity. Qed.


End RegistryProps.

(* ===================================================================== *)
(** * Properties of the built-ins *)
(* ===================================================================== *)

Module NumericProps.
Import Numeric.

Lemma lowest_integer (k : nat) (z : Z) : lowest k (z * 10 ^ Z.of_nat k) = Dec z 0.
Proof.
  induction k as [|k IH]; cbn [lowest].
  - rewrite Z.mul_1_r. reflexivity.
  - rewrite Nat2Z.inj_succ, Z.pow_succ_r by lia.
    replace (z * (10 * 10 ^ Z.of_nat k)) with (z * 10 ^ Z.of_nat k * 10) by lia.
    rewrite Z.mod_mul, Z.div_mul by lia. cbn [Z.eqb]. exact IH.
Qed.

Lemma sgn_abs_back (z : Z) : Z.sgn z * Z.abs z = z.
Proof. destruct z; reflexivity. Qed.

Lemma half_even_whole (n : Z) : half_even n 1 = n.
Proof. unfold half_even. rewrite Z.mod_1_r, Z.div_1_r. reflexivity. Qed.

(** An integer below [2^53] in magnitude is a double: the Number value for
    it is the integer itself. *)
Lemma binary64_integer (z : Z) : Z.abs z < 2 ^ 53 -> binary64 z 1 = Dec z 0.
Proof.
  intros Hz. unfold binary64.
  destruct (Z.eqb_spec z 0) as [->|Hnz]; [reflexivity|].
  assert (Ha : 0 < Z.abs z) by lia.
  pose proof (Z.log2_nonneg (Z.abs z)) as Hl0.
  assert (Hl : Z.log2 (Z.abs z) < 53) by (apply Z.log2_lt_pow2; assumption).
  destruct (Z.log2_spec (Z.abs z) Ha) as [Hlow _].
  set (l := Z.log2 (Z.abs z)) in *.
  assert (Hexp : exponent_of (Z.abs z) 1 = l - 52).
  { unfold exponent_of. fold l. change (Z.log2 1) with 0. rewrite Z.sub_0_r.
    unfold scaled. destruct (Z.leb_spec 0 (l - 53)) as [|_]; [lia|].
    rewrite Z.div_1_r.
    replace (- (l - 53)) with (53 - l) by lia.
    assert (2 ^ 53 <= Z.abs z * 2 ^ (53 - l)).
    { replace (2 ^ 53) with (2 ^ l * 2 ^ (53 - l))
        by (rewrite <- Z.pow_add_r by lia; f_equal; lia).
      apply Z.mul_le_mono_nonneg_r; [apply Z.pow_nonneg; lia | exact Hlow]. }
    destruct (Z.leb_spec (2 ^ 53) (Z.abs z * 2 ^ (53 - l))); lia. }
  rewrite Hexp. unfold scaled.
  destruct (Z.leb_spec 0 (l - 52)) as [Hpos|Hneg].
  - replace (l - 52) with 0 by lia.
    rewrite Z.pow_0_r, !Z.mul_1_r, half_even_whole, sgn_abs_back.
    destruct (Z.leb_spec (2 ^ 1024) (Z.abs z)) as [Hbig|_]; [|reflexivity].
    assert (2 ^ 53 < 2 ^ 1024) by (apply Z.pow_lt_mono_r; lia). lia.
  - rewrite half_even_whole.
    replace (- (l - 52)) with (52 - l) by lia.
    replace (Z.sgn z * (Z.abs z * 2 ^ (52 - l)) * 5 ^ (52 - l))
      with (z * 10 ^ Z.of_nat (Z.to_nat (52 - l))).
    + apply lowest_integer.
    + rewrite Z2Nat.id by lia. change 10 with (2 * 5). rewrite Z.pow_mul_l.
      rewrite <- (sgn_abs_back z) at 1. ring.
Qed.

(** [Number] rounds what it reads: a literal below half of the least double
    is [0], digits beyond the precision of a double are lost, a literal
    between two doubles becomes the nearer one, and one beyond the largest
    double an infinity. *)
Example StringToNumber_rounds :
  StringToNumber "1e-400" = Dec 0 0
  /\ StringToNumber "7.0000000000000000001" = Dec 7 0
  /\ StringToNumber "9007199254740993" = Dec 9007199254740992 0
  /\ StringToNumber "0.5" = Dec 5 1
  /\ StringToNumber "0.1" = Dec 1000000000000000055511151231257827021181583404541015625 55
  /\ StringToNumber "1.7976931348623159e308" = Inf false.
Proof. repeat split; vm_compute; reflexivity. Qed.

(** [Number] throws on what has no primitive value, and makes [NaN] of every
    other object. *)
Example ToNumber_of_objects :
  ToNumber (VObj [("toString", VStr "1")]) = Throw not_primitive
  /\ ToNumber (VArr [VObj [("toString", VStr "1")]]) = Throw not_primitive
  /\ ToNumber (VObj [("valueOf", VStr "1")]) = Normal NaN
  /\ ToNumber (VArr [VStr "5"]) = Normal (Dec 5 0)
  /\ ToNumber (VArr [VStr "3"; VStr "5"]) = Normal NaN.
Proof. repeat split. Qed.

End NumericProps.

Module DateProps.
Import Numeric Date.

(** [YearFromDay] is the year of the specification of the language: the
    day lies in the year it answers. *)
Lemma YearFromDay_spec (d : Z) :
  DayFromYear (YearFromDay d) <= d < DayFromYear (YearFromDay d + 1).
Proof.
  unfold YearFromDay.
  set (y := 1970 + d * 400 / 146097).
  destruct (Z.ltb_spec d (DayFromYear y)) as [Hlow|Hlow].
  - replace (y - 1 + 1) with y by lia.
    split; [|exact Hlow].
    unfold DayFromYear in *. subst y. Z.div_mod_to_equations. lia.
  - destruct (Z.leb_spec (DayFromYear (y + 1)) d) as [Hhigh|Hhigh]; [|lia].
    split; [exact Hhigh|].
    unfold DayFromYear in *. subst y. Z.div_mod_to_equations. lia.
Qed.

Lemma DayFromYear_step (y : Z) : DayFromYear (y + 1) = DayFromYear y + DaysInYear y.
Proof.
  unfold DayFromYear, DaysInYear.
  destruct (Z.eqb_spec (y mod 4) 0), (Z.eqb_spec (y mod 100) 0), (Z.eqb_spec (y mod 400) 0);
    cbn; Z.div_mod_to_equations; lia.
Qed.

Lemma DayWithinYear_range (t : Z) : 0 <= DayWithinYear t < DaysInYear (YearFromTime t).
Proof.
  unfold DayWithinYear, YearFromTime.
  pose proof (YearFromDay_spec (Day t)) as Hy.
  rewrite DayFromYear_step in Hy. lia.
Qed.

Lemma MonthFromTime_range (t : Z) : 0 <= MonthFromTime t <= 11.
Proof.
  unfold MonthFromTime.
  repeat match goal with |- context [if ?c then _ else _] => destruct c end; lia.
Qed.

Lemma DateFromTime_range (t : Z) : 1 <= DateFromTime t <= 31.
Proof.
  pose proof (DayWithinYear_range t) as Hd.
  unfold DateFromTime, MonthFromTime, InLeapYear.
  assert (Hleap : 0 <= DaysInYear (YearFromTime t) - 365 <= 1)
    by (unfold DaysInYear; destruct (_ && _); lia).
  set (leap := DaysInYear (YearFromTime t) - 365) in *.
  set (d := DayWithinYear t) in *.
  repeat match goal with |- context [?a <? ?b] => destruct (Z.ltb_spec a b) end;
    cbn [days_before_month Z.eqb Pos.eqb]; lia.
Qed.

(** Setting the day of the month to the current one minus [n] moves the
    local time back by [n] whole days: the difference is exact for every
    [n] that a date can be moved by. *)
Lemma MakeDay_back (t n : Z) :
  Z.abs n <= 2 ^ 52 ->
  MakeDay (YearFromTime t) (MonthFromTime t) (minus (Int (DateFromTime t)) (Dec n 0))
  = Some (Day t - n).
Proof.
  intros Hn.
  pose proof (MonthFromTime_range t) as Hm.
  pose proof (DateFromTime_range t) as Hd.
  unfold minus, Int, int_minus. cbn [Z.of_nat].
  change (10 ^ 0) with 1. rewrite Z.mul_1_r.
  rewrite NumericProps.binary64_integer
    by (change (2 ^ 53) with 9007199254740992; change (2 ^ 52) with 4503599627370496 in Hn; lia).
  unfold MakeDay, truncate. cbn [Z.of_nat].
  rewrite Z.div_small, Z.mod_small, Z.add_0_r by lia.
  change (10 ^ 0) with 1. rewrite Z.quot_1_r.
  unfold DateFromTime, DayWithinYear, InLeapYear. f_equal. lia.
Qed.

Lemma setDate_back (zone : Zone) (t n : Z) :
  Z.abs n <= 2 ^ 52 ->
  setDate zone (Some t) (minus (getDate zone (Some t)) (Dec n 0))
  = TimeClip (UTC zone (LocalTime zone t - n * msPerDay)).
Proof.
  intros Hn. unfold setDate, getDate. rewrite (MakeDay_back _ n Hn). do 2 f_equal.
  unfold MakeDate, Day, TimeWithinDay.
  pose proof (Z.div_mod (LocalTime zone t) msPerDay) as Hdm.
  unfold msPerDay in *. lia.
Qed.

(** Where the offset of local time does not change, [n] days back in local
    time are [n] times 86400000 milliseconds. *)
Lemma fixed_zone_back (offset t n : Z) :
  let zone : Zone := fun _ _ => offset in
  UTC zone (LocalTime zone t - n * msPerDay) = t - n * msPerDay.
Proof. unfold UTC, LocalTime. cbn. lia. Qed.

End DateProps.

(* ===================================================================== *)
(** * Properties of the Express integration *)
(* ===================================================================== *)

Module ExpressProps.
Import Numeric Date Express Samples Intake.

Lemma get_nullish (v : JsVal) (k : string) (x : JsVal) :
  get v k = Normal x -> nullish v = false.
Proof. destruct v; cbn; intros E; try reflexivity; discriminate. Qed.

Lemma get_field (v : JsVal) (k : string) :
  nullish v = false -> get v k = Normal (field v k).
Proof. unfold field. destruct v; cbn; intros E; try reflexivity; discriminate. Qed.

Section Handlers.
Context {S : Type} `{EventStore S}.

(** ** Submitting an event *)

(** A body with a falsy [type] or a falsy [data] is answered with 400, and
    nothing else happens. *)
Lemma postEvents_rejects (self : BrowserToolsExpress) (req : Request) (w : Server S) :
  nullish (body req) = false ->
  truthy (field (body req) "type") && truthy (field (body req) "data") = false ->
  postEvents self req w = (Normal tt, responded bad_request w).
Proof.
  intros Hbody Hfalsy. unfold postEvents, respond. run.
  rewrite !(get_field (body req)) by assumption.
  destruct (truthy (field (body req) "type")), (truthy (field (body req) "data"));
    try discriminate; reflexivity.
Qed.

(** C4, as the code has it.  A request with a body that has no [type] or
    no [data] is answered with status 400 and the validation message; the
    handler completes, and neither the store nor the record of requests
    sent to it changes. *)
Theorem postEvents_missing_field (self : BrowserToolsExpress) (req : Request) (w : Server S) :
  lacks (body req) "type" \/ lacks (body req) "data" ->
  postEvents self req w = (Normal tt, responded bad_request w)
  /\ database (responded bad_request w) = database w
  /\ store_log (responded bad_request w) = store_log w.
Proof.
  intros Hlacks. split; [|split; reflexivity].
  assert (Hbody : nullish (body req) = false)
    by (destruct Hlacks as [E|E]; exact (get_nullish _ _ _ E)).
  apply postEvents_rejects; [exact Hbody|].
  unfold lacks in Hlacks. rewrite !get_field in Hlacks by assumption.
  destruct Hlacks as [E|E]; injection E as ->; cbn; [reflexivity|apply andb_false_r].
Qed.

(** C10.  A body that holds [type] and [data] is still answered with 400,
    and without any request to the store, as soon as one of the two is
    falsy: an empty [type], or a [data] that is [0], [false], the empty
    string or [null]. *)
Theorem postEvents_requires_truthiness (self : BrowserToolsExpress) (req : Request)
    (fields : list (string * JsVal)) (type data : JsVal) (w : Server S) :
  body req = VObj fields ->
  lookup_prop "type" fields = Some type ->
  lookup_prop "data" fields = Some data ->
  truthy type = false \/ truthy data = false ->
  postEvents self req w = (Normal tt, responded bad_request w)
  /\ database (responded bad_request w) = database w
  /\ store_log (responded bad_request w) = store_log w.
Proof.
  intros Hbody Htype Hdata Hfalsy. split; [|split; reflexivity].
  apply postEvents_rejects; rewrite Hbody; [reflexivity|].
  unfold field. cbn. rewrite Htype, Hdata. cbn.
  destruct Hfalsy as [-> | ->]; [reflexivity|apply andb_false_r].
Qed.

(** A request that arrives without a parsed body ([req.body] is
    [undefined]) is another matter: the destructuring throws, and the route
    reports the [TypeError] with status 500. *)
Lemma postEvents_without_body (self : BrowserToolsExpress) (req : Request) (w : Server S) :
  nullish (body req) = true ->
  exists e, get (body req) "type" = Throw e
            /\ sent (postEvents self req w).2
               = (sent w ++ [{| status := 500; payload := VObj [("error", field e "message")] |}])%list
            /\ store_log (postEvents self req w).2 = store_log w.
Proof.
  intros Hbody. unfold postEvents, internal_error, respond, print. run.
  destruct (body req); try discriminate; cbn; eexists; repeat split.
Qed.

(** The values the specification lists are falsy. *)
Lemma listed_values_are_falsy :
  Forall (fun v => truthy v = false)
    [VStr EmptyString; VNum (Int 0); VBool false; VNull; VUndefined; VNum NaN].
Proof. repeat constructor. Qed.


(** With logging enabled, a [type] that cannot be converted to a string
    fails the template literal of the console line: without a store the
    route answers 500 with the [TypeError], although both fields are
    truthy. *)
Lemma postEvents_unprintable_type (self : BrowserToolsExpress) (req : Request) (w : Server S) :
  supabaseClient self = None ->
  nullish (body req) = false ->
  truthy (field (body req) "type") = true ->
  truthy (field (body req) "data") = true ->
  enableLogging self = true ->
  printable (field (body req) "type") = false ->
  postEvents self req w
  = (Normal tt,
     responded {| status := 500;
                  payload := VObj [("error", VStr "Cannot convert object to primitive value")] |}
       (logged (Console c_error [Val (VStr "[Browser Tools] Erro ao registrar evento:");
                                 Val not_primitive]) w)).
Proof.
  intros Hstore Hbody Htype Hdata Hlogging Hprint.
  unfold postEvents, internal_error, respond, print, template. run.
  rewrite !(get_field (body req)) by assumption.
  rewrite Htype, Hdata, Hstore, Hlogging, Hprint. reflexivity.
Qed.

(** ** Logging from the server *)


(** ** Querying the performance metrics *)

Lemma TimeClip_in_range (t : Z) : Z.abs t <= 8640000000000000 -> TimeClip t = Some t.
Proof.
  intros Hrange. unfold TimeClip.
  destruct (Z.ltb_spec 8640000000000000 (Z.abs t)); [lia|reflexivity].
Qed.

Lemma metric_projection (event : JsVal) :
  has_payload event -> metric event = Normal (projection event).
Proof.
  intros [Hevent Hdata]. unfold metric, projection.
  rewrite !(get_field event) by assumption.
  rewrite !(get_field (field event "data")) by assumption.
  reflexivity.
Qed.

Lemma map_metric_projection (events : list JsVal) :
  Forall has_payload events -> map_metric events = Normal (map projection events).
Proof.
  induction 1 as [|event rest Hevent _ IH]; cbn; [reflexivity|].
  rewrite (metric_projection event Hevent), IH. reflexivity.
Qed.

(** The cut-off of the route for an integral number of days: [n] days
    before now on the local calendar. *)
Lemma days_back_integral (tz : Zone) (now n : Z) :
  Z.abs now <= 8640000000000000 ->
  Z.abs n <= 2 ^ 52 ->
  days_back tz now (Dec n 0) = TimeClip (UTC tz (LocalTime tz now - n * msPerDay)).
Proof.
  intros Hnow Hn. unfold days_back, new_Date.
  rewrite (TimeClip_in_range now Hnow). apply DateProps.setDate_back, Hn.
Qed.

Lemma startDate_integral (tz : Zone) (now n : Z) (days : JsVal) :
  Z.abs now <= 8640000000000000 ->
  Z.abs n <= 2 ^ 52 ->
  ToNumber days = Normal (Dec n 0) ->
  startDate tz now days = TimeClip (UTC tz (LocalTime tz now - n * msPerDay)).
Proof.
  intros Hnow Hn Hdays. unfold startDate. rewrite Hdays.
  apply days_back_integral; assumption.
Qed.

(** A date that is in range [n] days from a clock in range, in a zone
    whose offset is less than a day, is less than [2^52] days away. *)
Lemma days_in_range (tz : Zone) (now n : Z) :
  (forall t utc, Z.abs (tz t utc) < msPerDay) ->
  Z.abs now <= 8640000000000000 ->
  Z.abs (UTC tz (LocalTime tz now - n * msPerDay)) <= 8640000000000000 ->
  Z.abs n <= 2 ^ 52.
Proof.
  intros Hzone Hnow Hcut. unfold UTC, LocalTime in Hcut.
  pose proof (Hzone now true) as Hnear.
  pose proof (Hzone (now + tz now true - n * msPerDay) false) as Hfar.
  change (2 ^ 52) with 4503599627370496. unfold msPerDay in *. lia.
Qed.

(** A value of [days] that is not a number leaves an invalid date. *)
Lemma days_back_not_a_number (tz : Zone) (now : Z) : days_back tz now NaN = None.
Proof.
  unfold days_back, setDate, getDate, minus, int_minus, MakeDay.
  destruct (new_Date now); reflexivity.
Qed.

Lemma startDate_not_a_number (tz : Zone) (now : Z) (days : JsVal) :
  ToNumber days = Normal NaN -> startDate tz now days = None.
Proof. intros Hdays. unfold startDate. rewrite Hdays. apply days_back_not_a_number. Qed.

(** With a store, a [days] that is not a number is answered with 500 and
    the store is not asked. *)
Lemma metrics_route_not_a_number (self : BrowserToolsExpress) (req : Request) (w : Server S)
    (client : SupabaseClient) (days : JsVal) :
  supabaseClient self = Some client ->
  days_of (query req) = Normal days ->
  ToNumber days = Normal NaN ->
  getMetricsPerformance self req w
  = (Normal tt,
     responded {| status := 500; payload := VObj [("error", VStr "Invalid time value")] |}
       (logged (Console c_error
                  [Val (VStr "[Browser Tools] Erro ao obter métricas de performance:");
                   Val (RangeError "Invalid time value")]) w)).
Proof.
  intros Hclient Hdays Hnan.
  unfold getMetricsPerformance, internal_error, respond, print. run.
  rewrite Hclient, Hdays, Hnan. cbn.
  rewrite (days_back_not_a_number (zone w) (clock w)). reflexivity.
Qed.

(** With a store, a [days] that [Number] cannot convert is answered with
    500 and the [TypeError] of the conversion, and the store is not asked. *)
Lemma metrics_route_not_convertible (self : BrowserToolsExpress) (req : Request) (w : Server S)
    (client : SupabaseClient) (days : JsVal) :
  supabaseClient self = Some client ->
  days_of (query req) = Normal days ->
  printable days = false ->
  getMetricsPerformance self req w
  = (Normal tt,
     responded {| status := 500;
                  payload := VObj [("error", VStr "Cannot convert object to primitive value")] |}
       (logged (Console c_error
                  [Val (VStr "[Browser Tools] Erro ao obter métricas de performance:");
                   Val not_primitive]) w)).
Proof.
  intros Hclient Hdays Hprint.
  unfold getMetricsPerformance, internal_error, respond, print, ToNumber. run.
  rewrite Hclient, Hdays, Hprint. reflexivity.
Qed.


End Handlers.

(** ** The store in memory answers a query with what it holds *)

Lemma place_permutation (before : JsVal -> JsVal -> bool) (x : JsVal) (l : list JsVal) :
  Permutation (place before x l) (x :: l).
Proof.
  induction l as [|y rest IH]; cbn; [reflexivity|].
  destruct (before x y); [reflexivity|].
  rewrite IH. apply perm_swap.
Qed.

Lemma sort_rows_permutation (before : JsVal -> JsVal -> bool) (l : list JsVal) :
  Permutation (sort_rows before l) l.
Proof.
  induction l as [|x rest IH]; cbn; [reflexivity|].
  rewrite place_permutation. apply perm_skip, IH.
Qed.

Lemma place_sorted (before : JsVal -> JsVal -> bool) (x : JsVal) (l : list JsVal) :
  (forall a b, before a b = false -> before b a = true) ->
  Sorted (fun a b => before a b = true) l ->
  Sorted (fun a b => before a b = true) (place before x l).
Proof.
  intros Htotal Hsorted. induction l as [|y rest IH]; cbn.
  - repeat constructor.
  - destruct (before x y) eqn:Hxy.
    + constructor; [exact Hsorted|]. constructor. exact Hxy.
    + inversion Hsorted as [|? ? Hrest Hhead]; subst.
      constructor; [apply IH; exact Hrest|].
      destruct rest as [|z rest']; cbn.
      * constructor. apply Htotal, Hxy.
      * destruct (before x z); constructor; [apply Htotal, Hxy|].
        inversion Hhead; subst. assumption.
Qed.

Lemma sort_rows_sorted (before : JsVal -> JsVal -> bool) (l : list JsVal) :
  (forall a b, before a b = false -> before b a = true) ->
  Sorted (fun a b => before a b = true) (sort_rows before l).
Proof.
  intros Htotal. induction l as [|x rest IH]; cbn; [constructor|].
  apply place_sorted; assumption.
Qed.

(** The store in memory answers the metrics query with exactly the
    performance records at or after the cut-off, newest first. *)
Lemma selected_performance_since (table since : string) (st : MemStore) :
  Permutation (selected (performance_since table since) st) (recent_performance table since st)
  /\ Sorted (fun a b => String.leb (text_of b "timestamp") (text_of a "timestamp") = true)
       (selected (performance_since table since) st).
Proof.
  unfold selected, recent_performance. cbn [filters order ascending from performance_since].
  split.
  - rewrite sort_rows_permutation.
    erewrite filter_ext; [reflexivity|].
    intros row. cbn. rewrite andb_true_r. reflexivity.
  - apply (sort_rows_sorted (before_by "timestamp" false)).
    intros a b. unfold before_by. intros Hab.
    destruct (String.leb_total (text_of a "timestamp") (text_of b "timestamp")); congruence.
Qed.

(** ** Runs on the sample server *)

Lemma postEvents_missing_field_witness :
  (lacks (body (post [("type", VStr "click")])) "type"
   \/ lacks (body (post [("type", VStr "click")])) "data")
  /\ sent (postEvents configured (post [("type", VStr "click")]) (server three_events)).2
     = [bad_request]
  /\ database (postEvents configured (post [("type", VStr "click")]) (server three_events)).2
     = three_events.
Proof.
  assert (Hlacks : lacks (body (post [("type", VStr "click")])) "type"
                   \/ lacks (body (post [("type", VStr "click")])) "data")
    by (right; reflexivity).
  destruct (postEvents_missing_field configured (post [("type", VStr "click")])
              (server three_events) Hlacks) as (E & _ & _).
  split; [exact Hlacks|]. rewrite E. split; reflexivity.
Defined.

Lemma postEvents_requires_truthiness_witness :
  (truthy (VStr "click") = false \/ truthy (VNum (Int 0)) = false)
  /\ postEvents configured (post [("type", VStr "click"); ("data", VNum (Int 0))])
       (server three_events)
     = (Normal tt, responded bad_request (server three_events)).
Proof.
  assert (Hfalsy : truthy (VStr "click") = false \/ truthy (VNum (Int 0)) = false)
    by (right; reflexivity).
  split; [exact Hfalsy|].
  apply (postEvents_requires_truthiness configured
           (post [("type", VStr "click"); ("data", VNum (Int 0))])
           [("type", VStr "click"); ("data", VNum (Int 0))]
           (VStr "click") (VNum (Int 0)) (server three_events)
           eq_refl eq_refl eq_refl Hfalsy).
Defined.

(** C4, as stated, fails: a request without a parsed body lacks both
    fields, and what it gets is not the 400 of the validation but a 500: the
    destructuring of [req.body] throws, and the [catch] block answers. *)
Lemma postEvents_bodiless_request_gets_500 :
  body bodiless = VUndefined
  /\ (postEvents configured bodiless (server three_events)).1 = Normal tt
  /\ sent (postEvents configured bodiless (server three_events)).2
     = [{| status := 500;
           payload :=
             VObj [("error",
                    VStr "Cannot read properties of undefined or null (reading 'type')")] |}]
  /\ sent (postEvents configured bodiless (server three_events)).2 <> [bad_request]
  /\ store_log (postEvents configured bodiless (server three_events)).2 = [].
Proof. repeat split. discriminate. Qed.






End ExpressProps.

(* ===================================================================== *)
(** * Further properties of the registry and its default tools *)
(* ===================================================================== *)

Module CatalogueProps.
Import Registry Hooks Samples Catalogue.

(** ** Registration and dispatch *)

(** X1.  [registerTool] touches the registry under the name of the tool and
    nowhere else: afterwards that name holds the tool, every other name
    holds what it held, and the call record, the mode and the host objects
    are as before. *)
Theorem registerTool_only_its_name (tool : BrowserTool) (w : Browser) :
  let w' := (registerTool tool w).2 in
  tools w' !! name tool = Some tool
  /\ (forall id, id <> name tool -> tools w' !! id = tools w !! id)
  /\ calls w' = calls w /\ NODE_ENV w' = NODE_ENV w /\ host w' = host w.
Proof.
  cbn zeta. rewrite RegistryProps.registerTool_run. cbn [snd tools calls NODE_ENV host].
  split; [apply lookup_insert_eq|].
  split; [|repeat split].
  intros id Hid. apply lookup_insert_ne. congruence.
Qed.

(** X2.  The warning is written exactly when the name was taken: a new name
    adds one tool and one notice; a taken name keeps the number of tools
    and puts the warning before the notice.  No name is ever lost. *)
Theorem registerTool_warns_iff_taken (tool : BrowserTool) (w : Browser) :
  let w' := (registerTool tool w).2 in
  (tools w !! name tool = None ->
   Registry.console w' = (Registry.console w ++ [success tool])%list
   /\ size (tools w') = S (size (tools w)))
  /\ (is_Some (tools w !! name tool) ->
      Registry.console w' = (Registry.console w ++ [warning tool; success tool])%list
      /\ size (tools w') = size (tools w))
  /\ dom (tools w) ⊆ dom (tools w').
Proof.
  cbn zeta. rewrite RegistryProps.registerTool_run. cbn [snd tools Registry.console].
  split; [|split].
  - intros Hfresh. rewrite bool_decide_false by (rewrite Hfresh; intros [? ?]; discriminate).
    split; [reflexivity|]. apply map_size_insert_None, Hfresh.
  - intros Htaken. rewrite bool_decide_true by exact Htaken.
    split; [reflexivity|]. apply map_size_insert_Some, Htaken.
  - apply dom_insert_subseteq.
Qed.

Section WithFunctions.
Context `{FunctionObjects}.

(** X3.  On success the registry is transparent: when the executable of a
    registered tool returns [v], [executeTool] returns [v] and leaves the
    world exactly as the executable left it, writing nothing of its own. *)
Theorem executeTool_passes_result (tool : BrowserTool) (id : string) (args : list JsVal)
    (v : JsVal) (w w' : Browser) :
  tools w !! id = Some tool ->
  call (execute tool) args w = (Normal v, w') ->
  executeTool id args w = (Normal v, w').
Proof.
  intros Hfound Hreturns.
  rewrite (RegistryProps.executeTool_found tool) by assumption.
  unfold call, Registry.print in Hreturns. run. cbn in Hreturns.
  rewrite Hreturns. reflexivity.
Qed.

End WithFunctions.

Lemma registerTool_only_its_name_witness :
  tools (registerTool toolC (registerTool toolA production).2).2 !! "inspect" = Some toolA.
Proof.
  destruct (registerTool_only_its_name toolC (registerTool toolA production).2)
    as (_ & Hothers & _).
  rewrite (Hothers "inspect") by discriminate.
  destruct (registerTool_only_its_name toolA production) as (Hown & _).
  exact Hown.
Defined.

Lemma registerTool_warns_iff_taken_witness :
  tools production !! name toolA = None
  /\ Registry.console (registerTool toolA production).2 = [success toolA].
Proof.
  split; [reflexivity|].
  destruct (registerTool_warns_iff_taken toolA production) as (Hfresh & _).
  destruct (Hfresh eq_refl) as [Hconsole _]. exact Hconsole.
Defined.

Lemma executeTool_passes_result_witness :
  tools (registerTool toolA production).2 !! "inspect" = Some toolA
  /\ (executeTool (H := sample_functions) "inspect" [] (registerTool toolA production).2).1
     = Normal (VStr "A").
Proof.
  split; [reflexivity|].
  rewrite (executeTool_passes_result (H := sample_functions) toolA "inspect" [] (VStr "A")
             (registerTool toolA production).2
             (called 0 [] (registerTool toolA production).2) eq_refl eq_refl).
  reflexivity.
Defined.

(** ** The listing *)

Lemma map_set_fresh (k : string) (v : BrowserTool) (m : Entries) :
  ~ In k (map fst m) -> map_set k v m = (m ++ [(k, v)])%list.
Proof.
  induction m as [|[k' v'] rest IH]; cbn; intros Hfresh; [reflexivity|].
  destruct (String.eqb_spec k k') as [->|Hne]; [tauto|].
  rewrite IH by tauto. reflexivity.
Qed.

Lemma map_set_present (k : string) (v old : BrowserTool) (before after : Entries) :
  ~ In k (map fst before) ->
  map_set k v (before ++ (k, old) :: after)%list = (before ++ (k, v) :: after)%list.
Proof.
  induction before as [|[k' v'] rest IH]; cbn; intros Hfresh.
  - rewrite String.eqb_refl. reflexivity.
  - destruct (String.eqb_spec k k') as [->|Hne]; [tauto|].
    rewrite IH by tauto. reflexivity.
Qed.

Lemma keys_map_set (k : string) (v : BrowserTool) (m : Entries) :
  map fst (map_set k v m)
  = if existsb (String.eqb k) (map fst m) then map fst m else (map fst m ++ [k])%list.
Proof.
  induction m as [|[k' v'] rest IH]; cbn; [reflexivity|].
  destruct (String.eqb_spec k k') as [->|Hne]; cbn; [reflexivity|].
  rewrite IH. destruct (existsb _ _); reflexivity.
Qed.

Lemma existsb_eqb_In (k : string) (l : list string) :
  existsb (String.eqb k) l = true <-> In k l.
Proof.
  rewrite existsb_exists. split.
  - intros (x & Hx & E). apply String.eqb_eq in E. congruence.
  - intros Hk. exists k. split; [exact Hk | apply String.eqb_refl].
Qed.

Lemma contents_map_set (k : string) (v : BrowserTool) (m : Entries) :
  contents (map_set k v m) = <[k := v]> (contents m).
Proof.
  unfold contents. induction m as [|[k' v'] rest IH]; cbn; [reflexivity|].
  destruct (String.eqb_spec k k') as [->|Hne]; cbn.
  - symmetry. apply insert_insert_eq.
  - rewrite IH. apply insert_insert_ne. congruence.
Qed.

Lemma contents_keys (m : Entries) (id : string) :
  is_Some (contents m !! id) <-> In id (map fst m).
Proof.
  unfold contents. induction m as [|[k' v'] rest IH]; cbn.
  - rewrite lookup_empty. split; [intros [? ?]; discriminate | tauto].
  - destruct (decide (k' = id)) as [->|Hne].
    + rewrite lookup_insert_eq. split; [tauto | eauto].
    + rewrite lookup_insert_ne by exact Hne. rewrite IH. tauto.
Qed.

Lemma keyed_enter (m : Entries) (tool : BrowserTool) : keyed m -> keyed (enter m tool).
Proof.
  intros [Hnodup Hnames]. unfold enter. split.
  - rewrite keys_map_set. destruct (existsb _ _) eqn:E; [exact Hnodup|].
    apply NoDup_app. split; [exact Hnodup|]. split.
    + intros x Hx Hin. apply list_elem_of_In in Hx, Hin. cbn in Hin.
      destruct Hin as [<-|[]].
      apply existsb_eqb_In in Hx. congruence.
    + apply NoDup_singleton.
  - induction m as [|[k' v'] rest IH]; cbn.
    + repeat constructor.
    + inversion Hnames as [|? ? Hhead Hrest]; subst. inversion Hnodup; subst.
      destruct (String.eqb_spec (name tool) k'); constructor; auto.
Qed.

Lemma entered_cons (m : Entries) (tool : BrowserTool) (rest : list BrowserTool) :
  entered m (tool :: rest) = entered (enter m tool) rest.
Proof. reflexivity. Qed.

Lemma keyed_entered (ts : list BrowserTool) (m : Entries) : keyed m -> keyed (entered m ts).
Proof.
  revert m. induction ts as [|tool rest IH]; intros m Hm; [exact Hm|].
  rewrite entered_cons. apply IH, keyed_enter, Hm.
Qed.

Lemma keyed_empty : keyed [].
Proof. split; constructor. Qed.

Lemma listTools_names (m : Entries) : keyed m -> map fst (listTools m) = map fst m.
Proof.
  intros [_ Hnames]. unfold listTools. rewrite map_map. cbn.
  induction Hnames as [|entry rest Hhead _ IH]; cbn; [reflexivity|].
  rewrite IH, Hhead. reflexivity.
Qed.

Lemma entered_distinct (ts : list BrowserTool) (m : Entries) :
  NoDup (map fst m ++ map name ts) ->
  entered m ts = (m ++ map (fun tool => (name tool, tool)) ts)%list.
Proof.
  revert m. induction ts as [|tool rest IH]; intros m Hnodup.
  - cbn. rewrite app_nil_r. reflexivity.
  - assert (Hfresh : ~ In (name tool) (map fst m)).
    { apply NoDup_app in Hnodup as (_ & Hdisjoint & _).
      intros Hin. apply (Hdisjoint (name tool)); [apply list_elem_of_In, Hin|].
      cbn. left. }
    rewrite entered_cons, IH.
    + unfold enter. rewrite (map_set_fresh _ _ _ Hfresh), <- app_assoc. reflexivity.
    + unfold enter. rewrite (map_set_fresh _ _ _ Hfresh), map_app. cbn.
      rewrite <- app_assoc. exact Hnodup.
Qed.

(** X4.  After registering tools with pairwise different names in an empty
    registry, [listTools] answers one entry a tool, with its name and its
    description, in the order of registration. *)
Theorem listTools_in_registration_order (ts : list BrowserTool) :
  NoDup (map name ts) ->
  listTools (entered [] ts) = map (fun tool => (name tool, description tool)) ts.
Proof.
  intros Hnodup. rewrite (entered_distinct ts []) by exact Hnodup.
  unfold listTools. cbn. rewrite map_map. reflexivity.
Qed.

(** X5.  Registering again under a name that is listed keeps the entry at
    its place in the listing and shows the new description; the other
    entries do not move. *)
Theorem reregistration_keeps_place (tool old : BrowserTool) (before after : Entries) :
  ~ In (name tool) (map fst before) ->
  listTools (enter (before ++ (name tool, old) :: after)%list tool)
  = (listTools before ++ (name tool, description tool) :: listTools after)%list.
Proof.
  intros Hfresh. unfold enter. rewrite (map_set_present _ _ _ _ _ Hfresh).
  unfold listTools. rewrite map_app. reflexivity.
Qed.

(** X6.  Whatever is registered, in whatever order and with whatever
    repetitions, the names listed are pairwise different, they are the
    names that were registered, and no more entries are listed than
    registrations were made. *)
Theorem listTools_one_entry_a_name (ts : list BrowserTool) :
  NoDup (map fst (listTools (entered [] ts)))
  /\ (forall id, In id (map fst (listTools (entered [] ts))) <-> In id (map name ts))
  /\ (length (listTools (entered [] ts)) <= length ts)%nat.
Proof.
  assert (Hkeyed : forall m, keyed m -> keyed (entered m ts)) by (intros; apply keyed_entered; assumption).
  assert (Hkeys : forall m id, In id (map fst (entered m ts))
                               <-> In id (map fst m) \/ In id (map name ts)).
  { clear Hkeyed. induction ts as [|tool rest IH]; intros m id; [cbn; tauto|].
    rewrite entered_cons, IH. cbn [map In]. unfold enter. rewrite keys_map_set.
    destruct (existsb _ _) eqn:E.
    - apply existsb_eqb_In in E. split; [tauto|].
      intros [Hm|[<-|Hrest]]; tauto.
    - rewrite in_app_iff. cbn. tauto. }
  assert (Hlength : forall m, (length (entered m ts) <= length m + length ts)%nat).
  { clear Hkeyed Hkeys. induction ts as [|tool rest IH]; intros m; [cbn; lia|].
    rewrite entered_cons. cbn [length]. specialize (IH (enter m tool)).
    assert (length (enter m tool) <= S (length m))%nat; [|lia].
    unfold enter. rewrite <- !(length_map fst), keys_map_set.
    destruct (existsb _ _); rewrite ?length_app; cbn; lia. }
  rewrite (listTools_names _ (Hkeyed [] keyed_empty)).
  split; [apply (Hkeyed [] keyed_empty)|].
  split.
  - intros id. rewrite Hkeys. cbn. tauto.
  - unfold listTools. rewrite length_map. apply (Hlength []).
Qed.

Lemma register_all_cons (tool : BrowserTool) (rest : list BrowserTool) (w : Browser) :
  register_all (tool :: rest) w = register_all rest (registerTool tool w).2.
Proof.
  change (register_all (tool :: rest)) with (registerTool tool;; register_all rest).
  unfold mbind, M_bind, bind. rewrite RegistryProps.registerTool_run. reflexivity.
Qed.

(** [register_all] on the world is [entered] on the map. *)
Lemma register_all_contents (ts : list BrowserTool) (m : Entries) (w : Browser) :
  tools w = contents m ->
  (register_all ts w).1 = Normal tt
  /\ tools (register_all ts w).2 = contents (entered m ts).
Proof.
  revert m w. induction ts as [|tool rest IH]; intros m w Hw; [split; [reflexivity|exact Hw]|].
  rewrite register_all_cons, entered_cons. apply IH.
  rewrite RegistryProps.registerTool_run. cbn [snd tools].
  unfold enter. rewrite contents_map_set, Hw. reflexivity.
Qed.

(** X7.  The listing and the dispatch agree: after any sequence of
    registrations in an empty registry, the names that [listTools] answers
    are exactly the names that [executeTool] finds. *)
Theorem listTools_lists_what_executes (ts : list BrowserTool) (w : Browser) (id : string) :
  tools w = ∅ ->
  In id (map fst (listTools (entered [] ts)))
  <-> is_Some (tools (register_all ts w).2 !! id).
Proof.
  intros Hempty.
  destruct (register_all_contents ts [] w Hempty) as [_ ->].
  rewrite contents_keys, (listTools_names _ (keyed_entered ts [] keyed_empty)).
  reflexivity.
Qed.

Lemma listTools_in_registration_order_witness :
  NoDup (map name [toolA; toolC])
  /\ listTools (entered [] [toolA; toolC])
     = [("inspect", "first version"); ("fragile", "always fails")].
Proof.
  assert (Hnodup : NoDup (map name [toolA; toolC])).
  { apply NoDup_ListNoDup. repeat constructor; cbn; intros Hin; firstorder discriminate. }
  split; [exact Hnodup|].
  rewrite (listTools_in_registration_order [toolA; toolC] Hnodup). reflexivity.
Defined.

Lemma reregistration_keeps_place_witness :
  ~ In (name toolB) (map fst [("fragile", toolC)])
  /\ listTools (enter [("fragile", toolC); ("inspect", toolA)] toolB)
     = [("fragile", "always fails"); ("inspect", "second version")].
Proof.
  assert (Hfresh : ~ In (name toolB) (map fst [("fragile", toolC)]))
    by (cbn; intros [E|[]]; discriminate).
  split; [exact Hfresh|].
  exact (reregistration_keeps_place toolB toolA [("fragile", toolC)] [] Hfresh).
Defined.

Lemma listTools_one_entry_a_name_witness :
  listTools (entered [] [toolA; toolB; toolC])
  = [("inspect", "second version"); ("fragile", "always fails")]
  /\ NoDup (map fst (listTools (entered [] [toolA; toolB; toolC]))).
Proof.
  destruct (listTools_one_entry_a_name [toolA; toolB; toolC]) as (Hnodup & _).
  split; [reflexivity | exact Hnodup].
Defined.

Lemma listTools_lists_what_executes_witness :
  tools production = ∅
  /\ is_Some (tools (register_all [toolA; toolB; toolC] production).2 !! "fragile").
Proof.
  split; [reflexivity|].
  apply (listTools_lists_what_executes [toolA; toolB; toolC] production "fragile" eq_refl).
  cbn. tauto.
Defined.

(** ** Construction *)

Lemma register_all_fresh (ts : list BrowserTool) (m : Entries) (w : Browser) :
  tools w = contents m ->
  NoDup (map fst m ++ map name ts) ->
  Registry.console (register_all ts w).2 = (Registry.console w ++ map success ts)%list.
Proof.
  revert m w. induction ts as [|tool rest IH]; intros m w Hw Hnodup.
  - cbn. rewrite app_nil_r. reflexivity.
  - assert (Hfresh : ~ In (name tool) (map fst m)).
    { apply NoDup_app in Hnodup as (_ & Hdisjoint & _).
      intros Hin. apply (Hdisjoint (name tool)); [apply list_elem_of_In, Hin|].
      cbn. left. }
    rewrite register_all_cons, (IH (enter m tool)).
    + rewrite RegistryProps.registerTool_run. cbn [snd Registry.console].
      rewrite bool_decide_false by (rewrite Hw, contents_keys; exact Hfresh).
      cbn. rewrite <- app_assoc. reflexivity.
    + rewrite RegistryProps.registerTool_run. cbn [snd tools].
      unfold enter. rewrite contents_map_set, Hw. reflexivity.
    + unfold enter. rewrite (map_set_fresh _ _ _ Hfresh), map_app. cbn.
      rewrite <- app_assoc. exact Hnodup.
Qed.

Lemma registerDefaultTools_all (fns : DefaultFunctions) (client : bool) (w : Browser) :
  registerDefaultTools fns client w = register_all (default_tools fns client) w.
Proof.
  unfold registerDefaultTools, default_tools.
  destruct client; cbn [app]; rewrite !register_all_cons;
    unfold mbind, M_bind, bind; rewrite !RegistryProps.registerTool_run; reflexivity.
Qed.

Lemma default_tools_distinct (fns : DefaultFunctions) (client : bool) :
  NoDup (map name (default_tools fns client)).
Proof.
  apply NoDup_ListNoDup.
  destruct client; cbn; repeat constructor; cbn; intros Hin;
    repeat (destruct Hin as [Hin|Hin]; [discriminate|]); exact Hin.
Qed.

(** X8.  A new registry holds the four default tools, and
    [syncWithSupabase] as a fifth exactly when both credentials are
    non-empty strings; they are listed in the order of the source, and
    construction writes one notice a tool and no warning. *)
Theorem new_registry_holds_the_defaults (fns : DefaultFunctions)
    (supabaseUrl supabaseKey : option string) (w : Browser) :
  let built := new_BrowserToolsMCP fns supabaseUrl supabaseKey w in
  let ts := default_tools fns (credentials supabaseUrl supabaseKey) in
  built.1 = Normal tt
  /\ tools built.2 = contents (entered [] ts)
  /\ listTools (entered [] ts) = map (fun tool => (name tool, description tool)) ts
  /\ Registry.console built.2 = (Registry.console w ++ map success ts)%list
  /\ (is_Some (tools built.2 !! "syncWithSupabase")
      <-> credentials supabaseUrl supabaseKey = true).
Proof.
  cbn zeta. unfold new_BrowserToolsMCP, mbind, M_bind, bind, modify.
  rewrite registerDefaultTools_all.
  set (w0 := set_tools (fun _ => ∅) w).
  set (ts := default_tools fns (credentials supabaseUrl supabaseKey)).
  destruct (register_all_contents ts [] w0 eq_refl) as [Hdone Htools].
  destruct (register_all ts w0) as [r built] eqn:Hrun. cbn [fst snd] in *.
  subst r. split; [reflexivity|]. split; [exact Htools|].
  split; [apply listTools_in_registration_order, default_tools_distinct|].
  split.
  - replace built with (register_all ts w0).2 by (rewrite Hrun; reflexivity).
    apply (register_all_fresh ts [] w0 eq_refl), default_tools_distinct.
  - rewrite Htools, contents_keys.
    rewrite (entered_distinct ts []) by apply default_tools_distinct.
    subst ts. destruct (credentials supabaseUrl supabaseKey); cbn.
    + split; [reflexivity|tauto].
    + split; [|discriminate].
      intros Hin. repeat (destruct Hin as [Hin|Hin]; [discriminate|]). destruct Hin.
Qed.

(** ** The state inspection tool and the facade in development mode *)

Lemma printed_printed (a b : list ConsoleCall) (w : Browser) :
  printed b (printed a w) = printed (a ++ b) w.
Proof. unfold printed, set_console. cbn. rewrite <- app_assoc. reflexivity. Qed.

Lemma printed_nil (w : Browser) : printed [] w = w.
Proof. destruct w. unfold printed, set_console. cbn. rewrite app_nil_r. reflexivity. Qed.

Section WithFunctions.
Context `{FunctionObjects}.

(** X9.  Through the registry, the default [debugState] tool returns its
    first argument ([undefined] when there is none), writes the group, the
    value and the end of the group to the console, and never throws. *)
Theorem debugState_tool_inspects (fns : DefaultFunctions) (args : list JsVal) (w : Browser) :
  runs_debugState fns ->
  tools w !! "debugState" = Some (debugState_tool fns) ->
  executeTool "debugState" args w
  = (Normal (hd VUndefined args),
     printed (inspection (hd VUndefined args)) (called (debugState_fn fns) args w)).
Proof.
  intros Hruns Hfound.
  rewrite (RegistryProps.executeTool_found (debugState_tool fns)) by exact Hfound.
  cbn [execute debugState_tool]. rewrite Hruns.
  unfold debugState_execute, Registry.print. run. cbn.
  unfold printed, inspection, set_console. cbn. rewrite <- !app_assoc. reflexivity.
Qed.

(** X10.  In development mode, with the default tool in place, the facade's
    [debugState] returns the state and the console shows, in this order,
    the group of the label (when one is given), the group, the value and
    the end of the group written by the tool, and the end of the group of
    the label. *)
Theorem debugState_in_development (fns : DefaultFunctions) (state : JsVal)
    (label : option string) (w : Browser) :
  development (NODE_ENV w) = true ->
  runs_debugState fns ->
  tools w !! "debugState" = Some (debugState_tool fns) ->
  Hooks.debugState state label w
  = (Normal state,
     printed (label_group label ++ inspection state ++ label_groupEnd label)
       (called (debugState_fn fns) [state] w)).
Proof.
  intros Hmode Hruns Hfound.
  unfold Hooks.debugState, mbind, M_bind, bind, gets. rewrite Hmode.
  unfold label_group, label_groupEnd.
  destruct (truthy (label_value label)).
  - unfold Registry.print at 1. unfold modify at 1.
    rewrite (debugState_tool_inspects fns) by assumption.
    unfold Registry.print, modify, mret, M_ret, ret, printed, called, inspection,
      set_console, set_calls.
    cbn. rewrite <- !app_assoc. reflexivity.
  - unfold mret, M_ret, ret at 1.
    rewrite (debugState_tool_inspects fns) by assumption.
    unfold mret, M_ret, ret, printed, called, inspection, set_console, set_calls.
    cbn. reflexivity.
Qed.

(** X11.  In development mode the facade does not guard the registry call:
    when [executeTool] throws, [debugState] throws the same value and stops
    there, so the console group it opened for the label stays open. *)
Theorem debugState_failure_leaves_group_open (state : JsVal) (label : option string)
    (e : JsVal) (w w' : Browser) :
  development (NODE_ENV w) = true ->
  executeTool "debugState" [state] (printed (label_group label) w) = (Throw e, w') ->
  Hooks.debugState state label w = (Throw e, w').
Proof.
  intros Hmode Hthrows.
  unfold Hooks.debugState, mbind, M_bind, bind, gets. rewrite Hmode.
  unfold label_group in Hthrows.
  destruct (truthy (label_value label)).
  - unfold Registry.print at 1. unfold modify at 1.
    unfold printed in Hthrows. rewrite Hthrows. reflexivity.
  - unfold mret, M_ret, ret at 1. rewrite printed_nil in Hthrows.
    rewrite Hthrows. reflexivity.
Qed.

End WithFunctions.

Lemma new_registry_holds_the_defaults_witness :
  listTools (entered [] (default_tools default_functions
                           (credentials (Some "https://project.supabase.co") (Some "key"))))
  = [("debugState", "Exibe o estado atual de um componente no console");
     ("measurePerformance", "Mede o tempo de execução de uma função");
     ("exportData", "Exporta dados para um arquivo JSON");
     ("checkBrowserCompatibility",
      "Verifica a compatibilidade do navegador com recursos necessários");
     ("syncWithSupabase", "Sincroniza dados com o Supabase")]
  /\ ~ is_Some (tools development_page !! "syncWithSupabase").
Proof.
  destruct (new_registry_holds_the_defaults default_functions
              (Some "https://project.supabase.co") (Some "key") production)
    as (_ & _ & Hlist & _).
  destruct (new_registry_holds_the_defaults default_functions None None
              (page (VStr "development") modern_host)) as (_ & _ & _ & _ & Hsync).
  split; [rewrite Hlist; reflexivity|].
  intros Hsome. apply Hsync in Hsome. discriminate.
Defined.

Lemma debugState_tool_inspects_witness :
  runs_debugState (H := page_functions) default_functions
  /\ tools development_page !! "debugState" = Some (debugState_tool default_functions)
  /\ (executeTool (H := page_functions) "debugState" [VNum (Int 5)] development_page).1
     = Normal (VNum (Int 5)).
Proof.
  assert (Hruns : runs_debugState (H := page_functions) default_functions)
    by (intros args; reflexivity).
  assert (Hfound : tools development_page !! "debugState"
                   = Some (debugState_tool default_functions)) by reflexivity.
  split; [exact Hruns|]. split; [exact Hfound|].
  rewrite (debugState_tool_inspects (H := page_functions) default_functions
             [VNum (Int 5)] development_page Hruns Hfound).
  reflexivity.
Defined.

Lemma debugState_in_development_witness :
  development (NODE_ENV development_page) = true
  /\ (Hooks.debugState (H := page_functions) (VNum (Int 5)) (Some "count") development_page).1
     = Normal (VNum (Int 5))
  /\ skipn 4 (Registry.console
                (Hooks.debugState (H := page_functions) (VNum (Int 5)) (Some "count")
                   development_page).2)
     = [Console c_group [Val (VStr "Estado do Componente: count")];
        Console c_group [Val (VStr "Estado do Componente")];
        Console c_log [Val (VNum (Int 5))];
        Console c_groupEnd [];
        Console c_groupEnd []].
Proof.
  split; [reflexivity|].
  rewrite (debugState_in_development (H := page_functions) default_functions
             (VNum (Int 5)) (Some "count") development_page eq_refl
             (fun args => eq_refl) eq_refl).
  split; reflexivity.
Defined.

Lemma debugState_failure_leaves_group_open_witness :
  development (NODE_ENV bare_development) = true
  /\ Hooks.debugState (H := page_functions) VNull (Some "count") bare_development
     = (Throw (notFound "debugState"),
        printed [Console c_group [Val (VStr "Estado do Componente: count")]] bare_development).
Proof.
  split; [reflexivity|].
  apply (debugState_failure_leaves_group_open (H := page_functions) VNull (Some "count")
           (notFound "debugState") bare_development); reflexivity.
Defined.

(** ** The capability probe, entry by entry *)

Lemma probe_webGL_spec (w : Browser) :
  exists g, probe_webGL w = (Normal g, w) /\ (g = true <-> has_webGL (host w)).
Proof.
  unfold probe_webGL, createElement, window_read, has_webGL. run. cbn.
  destruct (document (host w)) as [create|] eqn:Hdoc.
  2:{ exists false. split; [reflexivity|]. split; [discriminate|].
      intros (c & n & v & t & E & _). discriminate. }
  destruct (create "canvas") as [canvas|e] eqn:Hcanvas.
  2:{ exists false. split; [reflexivity|]. split; [discriminate|].
      intros (c & n & v & t & E & E' & _). congruence. }
  destruct (window (host w)) as [win|] eqn:Hwin.
  2:{ exists false. split; [reflexivity|]. split; [discriminate|].
      intros (c & n & v & t & _ & _ & E & _). discriminate. }
  destruct (win "WebGLRenderingContext") as [ctor|e] eqn:Hctor.
  2:{ exists false. split; [reflexivity|]. split; [discriminate|].
      intros (c & n & v & t & _ & _ & E & E' & _). congruence. }
  destruct (truthy ctor) eqn:Htruthy.
  2:{ exists false. split; [reflexivity|]. split; [discriminate|].
      intros (c & n & v & t & _ & _ & E & E' & Et & _). congruence. }
  destruct (canvas "webgl") as [webgl|e] eqn:Hwebgl.
  2:{ exists false. split; [reflexivity|]. split; [discriminate|].
      intros (c & n & v & t & E1 & E2 & _ & _ & _ & [(x & Ex & _)|(x & y & Ex & _)]);
        congruence. }
  destruct (truthy webgl) eqn:Hfirst.
  { exists true. split; [reflexivity|]. split; [|reflexivity]. intros _.
    exists create, win, canvas, ctor. repeat split; try assumption. left. eauto. }
  destruct (canvas "experimental-webgl") as [experimental|e] eqn:Hexp.
  2:{ exists false. split; [reflexivity|]. split; [discriminate|].
      intros (c & n & v & t & E1 & E2 & _ & _ & _ & [(x & Ex & Et)|(x & y & _ & _ & Ey & _)]);
        congruence. }
  exists (truthy experimental). split; [reflexivity|]. split.
  - intros Hsecond. exists create, win, canvas, ctor. repeat split; try assumption.
    right. eauto 6.
  - intros (c & n & v & t & E1 & E2 & _ & _ & _ & [(x & Ex & Et)|(x & y & _ & _ & Ey & Et)]);
      congruence.
Qed.

Lemma probe_webRTC_spec (w : Browser) (win : string -> Completion JsVal) (a b c : JsVal) :
  window (host w) = Some win ->
  win "RTCPeerConnection" = Normal a ->
  win "webkitRTCPeerConnection" = Normal b ->
  win "mozRTCPeerConnection" = Normal c ->
  exists v, probe_webRTC w = (Normal v, w) /\ truthy v = truthy a || truthy b || truthy c.
Proof.
  intros Hwin Ha Hb Hc. unfold probe_webRTC, mbind, M_bind.
  unfold bind at 1. rewrite (RegistryProps.window_read_value w win _ a) by assumption.
  destruct (truthy a) eqn:Ta; [exists a; split; [reflexivity | rewrite Ta; reflexivity]|].
  unfold bind. rewrite (RegistryProps.window_read_value w win _ b) by assumption.
  destruct (truthy b) eqn:Tb; [exists b; split; [reflexivity | rewrite Tb; reflexivity]|].
  rewrite (RegistryProps.window_read_value w win _ c) by assumption.
  exists c. split; reflexivity.
Qed.

(** X12.  What the probe answers, entry by entry: the three storage and
    socket entries are the truthiness of the matching properties of
    [window], [serviceWorkers] is whether [navigator] has a
    [serviceWorker] property, [webRTC] is true exactly when one of the
    three peer-connection properties is truthy, and [webGL] is true
    exactly when a canvas can be created, [WebGLRenderingContext] is
    truthy and one of the two contexts is obtained. *)
Theorem probe_reports_what_it_reads (w : Browser)
    (win : string -> Completion JsVal) (nav : string -> bool) (l s k a b c : JsVal) :
  window (host w) = Some win ->
  navigator (host w) = Some nav ->
  win "localStorage" = Normal l ->
  win "sessionStorage" = Normal s ->
  win "WebSocket" = Normal k ->
  win "RTCPeerConnection" = Normal a ->
  win "webkitRTCPeerConnection" = Normal b ->
  win "mozRTCPeerConnection" = Normal c ->
  exists g,
    (Registry.checkBrowserCompatibility w).1
    = Normal (features (truthy l) (truthy s) (truthy k) (nav "serviceWorker") g
                (truthy a || truthy b || truthy c))
    /\ (g = true <-> has_webGL (host w)).
Proof.
  intros Hwin Hnav Hl Hs Hk Ha Hb Hc.
  destruct (probe_webGL_spec w) as (g & Hg & Hiff).
  destruct (probe_webRTC_spec w win a b c Hwin Ha Hb Hc) as (r & Hr & Htruthy).
  exists g. split; [|exact Hiff].
  unfold Registry.checkBrowserCompatibility, mbind, M_bind, bind.
  rewrite (RegistryProps.window_read_value w win _ l),
    (RegistryProps.window_read_value w win _ s),
    (RegistryProps.window_read_value w win _ k) by assumption.
  unfold in_navigator at 1. unfold mbind, M_bind, bind, gets, mret, M_ret, ret.
  rewrite Hnav, Hg, Hr, Htruthy. reflexivity.
Qed.

Lemma window_read_run (w : Browser) (p : string) :
  window_read p w
  = (match window (host w) with
     | Some win => win p
     | None => Throw (ReferenceError "window is not defined")
     end, w).
Proof. unfold window_read. run. cbn. destruct (window (host w)); reflexivity. Qed.

Lemma probe_unreadable (w : Browser) :
  unreadable (host w) -> exists e, Registry.checkBrowserCompatibility w = (Throw e, w).
Proof.
  unfold Registry.checkBrowserCompatibility, mbind, M_bind.
  intros [Hnone | (win & p & e & Hwin & Hp & Hthrows)].
  - unfold bind at 1. rewrite window_read_run, Hnone. eexists; reflexivity.
  - unfold bind at 1. rewrite window_read_run, Hwin.
    destruct (win "localStorage") as [l|e1] eqn:Hl; [|eexists; reflexivity].
    unfold bind at 1. rewrite window_read_run, Hwin.
    destruct (win "sessionStorage") as [s|e2] eqn:Hs; [|eexists; reflexivity].
    unfold bind at 1. rewrite window_read_run, Hwin.
    destruct (win "WebSocket") as [k|e3] eqn:Hk; [|eexists; reflexivity].
    cbn in Hp. destruct Hp as [<-|[<-|[<-|[]]]]; congruence.
Qed.

Section WithFunctions.
Context `{FunctionObjects}.

(** X13.  Where the probe cannot read the host (no [window], as on a
    server, or a property whose getter throws), the facade's
    [checkBrowserCompatibility] throws: the registry writes one
    [console.error] with the error and rethrows it, and no table of
    capabilities is printed. *)
Theorem facade_probe_fails_on_unreadable_host (fns : DefaultFunctions) (w : Browser) :
  runs_probe fns ->
  tools w !! "checkBrowserCompatibility" = Some (checkBrowserCompatibility_tool fns) ->
  unreadable (host w) ->
  exists e,
    Hooks.checkBrowserCompatibility w
    = (Throw e,
       printed [failure "checkBrowserCompatibility" e]
         (called (checkBrowserCompatibility_fn fns) [] w)).
Proof.
  intros Hruns Hfound Hhost.
  destruct (probe_unreadable (called (checkBrowserCompatibility_fn fns) [] w) Hhost)
    as [e He].
  exists e. unfold Hooks.checkBrowserCompatibility.
  rewrite (RegistryProps.executeTool_found (checkBrowserCompatibility_tool fns))
    by exact Hfound.
  cbn [execute checkBrowserCompatibility_tool]. rewrite Hruns.
  unfold called in He. rewrite He. reflexivity.
Qed.

End WithFunctions.

Lemma probe_reports_what_it_reads_witness :
  window (host production) = Some (present ["localStorage"; "sessionStorage"; "WebSocket";
                                            "WebGLRenderingContext"; "RTCPeerConnection"])
  /\ (Registry.checkBrowserCompatibility production).1
     = Normal (features true true true true true true).
Proof.
  split; [reflexivity|].
  destruct (probe_reports_what_it_reads production
              (present ["localStorage"; "sessionStorage"; "WebSocket";
                        "WebGLRenderingContext"; "RTCPeerConnection"])
              (String.eqb "serviceWorker")
              (VObj []) (VObj []) (VObj []) (VObj []) VUndefined VUndefined
              eq_refl eq_refl eq_refl eq_refl eq_refl eq_refl eq_refl eq_refl)
    as (g & E & Hiff).
  rewrite E. replace g with true; [reflexivity|].
  symmetry. apply Hiff.
  exists (fun tag => Normal (fun kind => Normal (VObj []))),
    (present ["localStorage"; "sessionStorage"; "WebSocket";
              "WebGLRenderingContext"; "RTCPeerConnection"]),
    (fun kind => Normal (VObj [])), (VObj []).
  repeat split. left. exists (VObj []). split; reflexivity.
Defined.

Lemma facade_probe_fails_on_unreadable_host_witness :
  unreadable (host (fresh_page VUndefined server_side_host))
  /\ Hooks.checkBrowserCompatibility (H := page_functions)
       (fresh_page VUndefined server_side_host)
     = (Throw (ReferenceError "window is not defined"),
        printed [failure "checkBrowserCompatibility" (ReferenceError "window is not defined")]
          (called 13 [] (fresh_page VUndefined server_side_host))).
Proof.
  assert (Hhost : unreadable (host (fresh_page VUndefined server_side_host)))
    by (left; reflexivity).
  split; [exact Hhost|].
  destruct (facade_probe_fails_on_unreadable_host (H := page_functions) default_functions
              (fresh_page VUndefined server_side_host) (fun args => eq_refl) eq_refl Hhost)
    as [e He].
  rewrite He.
  assert (Hrun : Hooks.checkBrowserCompatibility (H := page_functions)
                   (fresh_page VUndefined server_side_host)
                 = (Throw (ReferenceError "window is not defined"),
                    printed [failure "checkBrowserCompatibility"
                               (ReferenceError "window is not defined")]
                      (called 13 [] (fresh_page VUndefined server_side_host))))
    by reflexivity.
  rewrite He in Hrun. exact Hrun.
Defined.

End CatalogueProps.

(* ===================================================================== *)
(** * Further properties of the Express integration *)
(* ===================================================================== *)

Module IntakeProps.
Import Numeric Date Express Samples Intake.

Lemma truthy_not_nullish (v : JsVal) : truthy v = true -> nullish v = false.
Proof. destruct v; cbn; intros E; try reflexivity; discriminate. Qed.

Lemma iso_truthy (t : Z) : truthy (VStr (iso t)) = true.
Proof. unfold iso. destruct (iso_year (YearFromTime t)); reflexivity. Qed.

Lemma stamp_at_truthy (now : Z) (timestamp : JsVal) : truthy (stamp_at now timestamp) = true.
Proof.
  unfold stamp_at. destruct (truthy timestamp) eqn:E; [exact E | apply iso_truthy].
Qed.

Lemma or_else_null (v : JsVal) : truthy (or_else v VNull) = true \/ or_else v VNull = VNull.
Proof. unfold or_else. destruct (truthy v) eqn:E; [left; exact E | right; reflexivity]. Qed.

Section Handlers.
Context {S : Type} `{EventStore S}.

Lemma internal_error_run (context : string) (e : JsVal) (w : Server S) :
  nullish e = false ->
  internal_error context e w
  = (Normal tt, responded (failed e) (logged (Console c_error [Val (VStr context); Val e]) w)).
Proof.
  intros He. unfold internal_error, respond, print, failed. run.
  rewrite (ExpressProps.get_field e "message" He). reflexivity.
Qed.

Lemma internal_error_nullish (context : string) (e : JsVal) (w : Server S) :
  nullish e = true ->
  exists e', internal_error context e w
             = (Throw e', logged (Console c_error [Val (VStr context); Val e]) w).
Proof.
  intros He. unfold internal_error, respond, print. run.
  destruct e; try discriminate; eexists; reflexivity.
Qed.

Lemma timestamp_or_now_run (timestamp : JsVal) (w : Server S) :
  Z.abs (clock w) <= 8640000000000000 ->
  timestamp_or_now timestamp w = (Normal (stamp_at (clock w) timestamp), w).
Proof.
  intros Hclock. unfold timestamp_or_now, stamp_at, now_iso, new_Date. run.
  destruct (truthy timestamp); [reflexivity|].
  rewrite (ExpressProps.TimeClip_in_range _ Hclock). reflexivity.
Qed.

(** ** Submitting an event to a store *)

(** X14.  With a store, a request whose [type] and [data] are truthy is
    sent to the store as one record: [type] and [data] as given, the time
    stamp of the client when it is truthy and the ISO text of the clock
    otherwise, and [user_id] the [userId] of the client when it is truthy
    and [null] otherwise.  When the store takes it, the route answers 201
    with [{success: true, event}], where [event] is the [data] of the
    store's answer, after one line on the console when logging is enabled,
    for which it converts [type] to a string. *)
Theorem postEvents_persists (self : BrowserToolsExpress) (req : Request) (w : Server S)
    (client : SupabaseClient) (answer eventData error : JsVal) (db : S) :
  let record := client_record (field (body req) "type") (field (body req) "data")
                  (stamp_at (clock w) (field (body req) "timestamp"))
                  (field (body req) "userId") in
  supabaseClient self = Some client ->
  nullish (body req) = false ->
  truthy (field (body req) "type") = true ->
  truthy (field (body req) "data") = true ->
  enableLogging self = false \/ printable (field (body req) "type") = true ->
  Z.abs (clock w) <= 8640000000000000 ->
  insert (tableName self) [record] (database w) = (Normal answer, db) ->
  get answer "data" = Normal eventData ->
  get answer "error" = Normal error ->
  truthy error = false ->
  postEvents self req w
  = (Normal tt,
     responded (created eventData)
       ((if enableLogging self then logged (events_notice (field (body req) "type"))
         else fun w' => w')
          (requested (Insert (tableName self) [record]) db w))).
Proof.
  intros record Hclient Hbody Htype Hdata Hprint Hclock Hinsert Hevent Herror Hfalsy.
  unfold postEvents, mbind, M_bind, bind, try_catch, lift.
  rewrite !(ExpressProps.get_field (body req)) by assumption.
  rewrite Htype, Hdata, Hclient. cbn [negb orb].
  rewrite (timestamp_or_now_run _ w Hclock).
  subst record. unfold client_record in *.
  unfold await, perform. rewrite Hinsert, Hevent, Herror, Hfalsy.
  unfold respond, print, modify, mret, M_ret, ret, template.
  destruct (enableLogging self); [|reflexivity].
  destruct Hprint as [Hquiet | ->]; [discriminate | reflexivity].
Qed.

(** X15.  When the store fails the insert with [e], by rejecting or by an
    error answer, the events route writes [e] to the console as an error,
    whether logging is enabled or not, and answers 500 with the message of
    [e]. *)
Theorem postEvents_store_failure (self : BrowserToolsExpress) (req : Request) (w : Server S)
    (client : SupabaseClient) (e : JsVal) (db : S) :
  let record := client_record (field (body req) "type") (field (body req) "data")
                  (stamp_at (clock w) (field (body req) "timestamp"))
                  (field (body req) "userId") in
  supabaseClient self = Some client ->
  nullish (body req) = false ->
  truthy (field (body req) "type") = true ->
  truthy (field (body req) "data") = true ->
  Z.abs (clock w) <= 8640000000000000 ->
  store_fails (Insert (tableName self) [record]) (database w) db e ->
  postEvents self req w
  = (Normal tt,
     responded (failed e)
       (logged (events_failure e) (requested (Insert (tableName self) [record]) db w))).
Proof.
  intros record Hclient Hbody Htype Hdata Hclock Hfails.
  unfold postEvents, mbind, M_bind, bind, try_catch, lift.
  rewrite !(ExpressProps.get_field (body req)) by assumption.
  rewrite Htype, Hdata, Hclient. cbn [negb orb].
  rewrite (timestamp_or_now_run _ w Hclock).
  subst record. unfold client_record, store_fails in *. unfold await.
  destruct Hfails as [[Hrejects He] | (answer & Hanswers & Herror & Htruthy)].
  - rewrite Hrejects. apply internal_error_run, He.
  - rewrite Hanswers.
    assert (Hanswer : nullish answer = false) by exact (ExpressProps.get_nullish _ _ _ Herror).
    rewrite (ExpressProps.get_field answer "data" Hanswer), Herror, Htruthy.
    unfold throw. apply internal_error_run, truthy_not_nullish, Htruthy.
Qed.

(** ** What the events route does on every request *)

Lemma timestamp_or_now_cases (timestamp : JsVal) (w : Server S) :
  (exists stamp, truthy stamp = true /\ timestamp_or_now timestamp w = (Normal stamp, w))
  \/ (exists e, nullish e = false /\ timestamp_or_now timestamp w = (Throw e, w)).
Proof.
  unfold timestamp_or_now, now_iso. run.
  destruct (truthy timestamp) eqn:E; [left; eauto|].
  destruct (new_Date (clock w)) as [t|]; cbn.
  - left. exists (VStr (iso t)). split; [apply iso_truthy | reflexivity].
  - right. exists (RangeError "Invalid time value"). split; reflexivity.
Qed.

(** Every run of the events route, branch by branch. *)
Lemma postEvents_cases (self : BrowserToolsExpress) (req : Request) (w : Server S) :
  (exists e, nullish e = false
             /\ postEvents self req w
                = (Normal tt, responded (failed e) (logged (events_failure e) w)))
  \/ postEvents self req w = (Normal tt, responded bad_request w)
  \/ (supabaseClient self = None
      /\ exists c, postEvents self req w
                   = (Normal tt,
                      responded accepted_not_persisted
                        (if enableLogging self then logged c w else w)))
  \/ (exists type data stamp user db,
        let request := Insert (tableName self) [client_record type data stamp user] in
        let w1 := requested request db w in
        supabaseClient self <> None
        /\ truthy type = true /\ truthy data = true /\ truthy stamp = true
        /\ ((exists e, nullish e = false
                       /\ postEvents self req w
                          = (Normal tt, responded (failed e) (logged (events_failure e) w1)))
            \/ (exists e', rejects_without_reason request (database w)
                           /\ exists e, postEvents self req w
                                        = (Throw e', logged (events_failure e) w1))
            \/ (exists eventData,
                  postEvents self req w
                  = (Normal tt,
                     responded (created eventData)
                       (if enableLogging self then logged (events_notice type) w1 else w1))))).
Proof.
  unfold postEvents, mbind, M_bind, bind, try_catch, lift.
  destruct (nullish (body req)) eqn:Hbody.
  { left. destruct (body req); try discriminate; cbn;
      (eexists; split; [|apply internal_error_run]; reflexivity). }
  rewrite !(ExpressProps.get_field (body req)) by assumption.
  set (type := field (body req) "type"). set (data := field (body req) "data").
  destruct (truthy type) eqn:Htype; [|right; left; reflexivity].
  destruct (truthy data) eqn:Hdata; [|right; left; reflexivity].
  cbn [negb orb].
  destruct (supabaseClient self) as [client|] eqn:Hclient.
  2:{ unfold print, respond, modify, mret, M_ret, ret, template.
      destruct (enableLogging self);
        [|right; right; left; split; [reflexivity|]; exists (Console c_log []); reflexivity].
      destruct (printable type).
      - right; right; left. split; [reflexivity|]. eexists. reflexivity.
      - left. exists not_primitive. split; [|apply internal_error_run]; reflexivity. }
  destruct (timestamp_or_now_cases (field (body req) "timestamp") w)
    as [(stamp & Hstamp & ->) | (e & He & ->)].
  2:{ left. exists e. split; [exact He | apply internal_error_run, He]. }
  right; right; right.
  unfold await.
  destruct (perform _ (database w)) as [[answer|e] db] eqn:Hsent.
  2:{ exists type, data, stamp, (field (body req) "userId"), db. cbn zeta.
      split; [discriminate|]. repeat (split; [assumption|]).
      destruct (nullish e) eqn:He.
      - right; left.
        destruct (internal_error_nullish "[Browser Tools] Erro ao registrar evento:" e
                    (requested (Insert (tableName self)
                                  [client_record type data stamp (field (body req) "userId")])
                       db w) He) as [e' He'].
        exists e'. split; [exists e, db; split; assumption|]. exists e. exact He'.
      - left. exists e. split; [exact He | apply internal_error_run, He]. }
  exists type, data, stamp, (field (body req) "userId"), db. cbn zeta.
  split; [discriminate|]. repeat (split; [assumption|]).
  destruct (nullish answer) eqn:Hanswer.
  { left. destruct answer; try discriminate; cbn;
      (eexists; split; [|apply internal_error_run]; reflexivity). }
  rewrite !(ExpressProps.get_field answer) by assumption.
  destruct (truthy (field answer "error")) eqn:Herror.
  - left. exists (field answer "error").
    split; [apply truthy_not_nullish, Herror|].
    unfold throw. apply internal_error_run, truthy_not_nullish, Herror.
  - unfold print, respond, modify, mret, M_ret, ret, template.
    destruct (enableLogging self);
      [|right; right; exists (field answer "data"); reflexivity].
    destruct (printable type).
    + right; right. exists (field answer "data"). reflexivity.
    + left. exists not_primitive. split; [|apply internal_error_run]; reflexivity.
Qed.

(** X16.  The events route answers every request once: it completes and
    writes exactly one response, with status 200, 201, 400 or 500.  The one
    exception is a store that rejects the insert with [null] or
    [undefined]: reading the message of that reason throws inside the
    [catch] block, the handler fails and no response is written. *)
Theorem postEvents_answers_once (self : BrowserToolsExpress) (req : Request) (w : Server S) :
  ((postEvents self req w).1 = Normal tt
   /\ exists response, sent (postEvents self req w).2 = (sent w ++ [response])%list
                       /\ In (status response) [200; 201; 400; 500])
  \/ ((exists e, (postEvents self req w).1 = Throw e)
      /\ sent (postEvents self req w).2 = sent w
      /\ exists record, rejects_without_reason (Insert (tableName self) [record]) (database w)).
Proof.
  destruct (postEvents_cases self req w)
    as [(e & _ & ->) | [-> | [(_ & c & ->) | (type & data & stamp & user & db & Hcases)]]].
  - left. split; [reflexivity|]. eexists. split; [reflexivity|]. cbn. tauto.
  - left. split; [reflexivity|]. eexists. split; [reflexivity|]. cbn. tauto.
  - left. split; [reflexivity|]. eexists.
    split; [destruct (enableLogging self); reflexivity|]. cbn. tauto.
  - cbn zeta in Hcases.
    destruct Hcases as (_ & _ & _ & _ & [(e & _ & ->) | [(e' & Hrejects & e & ->) | (ev & ->)]]).
    + left. split; [reflexivity|]. eexists. split; [reflexivity|]. cbn. tauto.
    + right. split; [eauto|]. split; [reflexivity|]. eauto.
    + left. split; [reflexivity|]. eexists.
      split; [destruct (enableLogging self); reflexivity|]. cbn. tauto.
Qed.

(** X17.  The events route sends at most one request to the store, and
    never one for an unconfigured instance.  The request is the insert of
    one record into the table of the instance, and the record always has a
    truthy [type], a truthy [data], a truthy [timestamp] and a [user_id]
    that is truthy or [null]. *)
Theorem postEvents_sends_wellformed_records (self : BrowserToolsExpress) (req : Request)
    (w : Server S) :
  store_log (postEvents self req w).2 = store_log w
  \/ (supabaseClient self <> None
      /\ exists type data stamp user_id,
           store_log (postEvents self req w).2
           = (store_log w
                ++ [Insert (tableName self)
                      [VObj [("type", type); ("data", data); ("timestamp", stamp);
                             ("user_id", user_id)]]])%list
           /\ truthy type = true /\ truthy data = true /\ truthy stamp = true
           /\ (truthy user_id = true \/ user_id = VNull)).
Proof.
  destruct (postEvents_cases self req w)
    as [(e & _ & ->) | [-> | [(_ & c & ->) | (type & data & stamp & user & db & Hcases)]]].
  - left. reflexivity.
  - left. reflexivity.
  - left. destruct (enableLogging self); reflexivity.
  - cbn zeta in Hcases. destruct Hcases as (Hclient & Htype & Hdata & Hstamp & Hrun).
    right. split; [exact Hclient|].
    exists type, data, stamp, (or_else user VNull).
    split; [|repeat (split; [assumption|]); apply or_else_null].
    destruct Hrun as [(e & _ & ->) | [(e' & _ & e & ->) | (ev & ->)]];
      try reflexivity.
    destruct (enableLogging self); reflexivity.
Qed.

(** X18.  With logging disabled the events route is silent unless it
    fails: the console is left as it was, or it gains exactly one
    [console.error] entry and the request is not answered with a 2xx or
    400 status. *)
Theorem postEvents_quiet_unless_failing (self : BrowserToolsExpress) (req : Request)
    (w : Server S) :
  enableLogging self = false ->
  console (postEvents self req w).2 = console w
  \/ (exists e, console (postEvents self req w).2 = (console w ++ [events_failure e])%list
                /\ forall response, In response (sent (postEvents self req w).2) ->
                                    In response (sent w) \/ status response = 500).
Proof.
  intros Hquiet.
  destruct (postEvents_cases self req w)
    as [(e & _ & ->) | [-> | [(_ & c & ->) | (type & data & stamp & user & db & Hcases)]]].
  - right. exists e. split; [reflexivity|].
    intros response. cbn. rewrite in_app_iff. cbn. intros [Hin|[<-|[]]]; tauto.
  - left. reflexivity.
  - left. rewrite Hquiet. reflexivity.
  - cbn zeta in Hcases.
    destruct Hcases as (_ & _ & _ & _ & [(e & _ & ->) | [(e' & _ & e & ->) | (ev & ->)]]).
    + right. exists e. split; [reflexivity|].
      intros response. cbn. rewrite in_app_iff. cbn. intros [Hin|[<-|[]]]; tauto.
    + right. exists e. split; [reflexivity|]. intros response. cbn. tauto.
    + left. rewrite Hquiet. reflexivity.
Qed.

(** ** The status route and instances without a store *)

(** X19.  The status route answers 200 with the fixed descriptor, in which
    [supabase] is true exactly when the instance was built from a
    configuration with a non-empty URL and a non-empty key; it does so
    without asking the store, whatever state the store is in, and writes
    nothing to the console. *)
Theorem status_reports_credentials (config : BrowserToolsConfig) (req : Request)
    (w : Server S) :
  getStatus (new_BrowserToolsExpress config) req w
  = (Normal tt, responded (status_report (names_a_store config)) w).
Proof.
  unfold getStatus, respond, modify, status_report, names_a_store, new_BrowserToolsExpress.
  cbn [supabaseClient].
  destruct (nonempty (supabaseUrl config)), (nonempty (supabaseKey config)); reflexivity.
Qed.


(** ** The failures of the metrics route *)

(** X21.  When the store fails the query with [e], by rejecting or by an
    error answer, the metrics route writes [e] to the console as an error
    and answers 500 with the message of [e]. *)
Theorem metrics_route_store_failure (self : BrowserToolsExpress) (req : Request)
    (w : Server S) (client : SupabaseClient) (days : JsVal) (since : string)
    (e : JsVal) (db : S) :
  let request := Query (performance_since (tableName self) since) in
  supabaseClient self = Some client ->
  days_of (query req) = Normal days ->
  toISOString (startDate (zone w) (clock w) days) = Normal since ->
  store_fails request (database w) db e ->
  getMetricsPerformance self req w
  = (Normal tt, responded (failed e) (logged (metrics_failure e) (requested request db w))).
Proof.
  intros request Hclient Hdays Hsince Hfails. subst request.
  unfold getMetricsPerformance, mbind, M_bind, bind, try_catch, lift, gets.
  rewrite Hclient, Hdays. unfold startDate in Hsince.
  destruct (ToNumber days) as [number|]; [|discriminate].
  rewrite Hsince. unfold await.
  destruct Hfails as [[Hrejects He] | (answer & Hanswers & Herror & Htruthy)].
  - rewrite Hrejects. apply internal_error_run, He.
  - rewrite Hanswers.
    assert (Hanswer : nullish answer = false) by exact (ExpressProps.get_nullish _ _ _ Herror).
    rewrite (ExpressProps.get_field answer "data" Hanswer), Herror, Htruthy.
    unfold throw. apply internal_error_run, truthy_not_nullish, Htruthy.
Qed.

Lemma has_payload_dec (event : JsVal) : has_payload event \/ ~ has_payload event.
Proof.
  unfold has_payload.
  destruct (nullish event), (nullish (field event "data")); intuition discriminate.
Qed.

Lemma metric_without_payload (event : JsVal) :
  ~ has_payload event ->
  exists e, metric event = Throw e /\ field e "name" = VStr "TypeError".
Proof.
  unfold has_payload. intros Hbad.
  destruct (nullish event) eqn:Hevent.
  { destruct event; try discriminate; cbn; eexists; split; reflexivity. }
  destruct (nullish (field event "data")) eqn:Hdata; [|tauto].
  unfold metric. rewrite !(ExpressProps.get_field event) by assumption.
  destruct (field event "data"); try discriminate; cbn; eexists; split; reflexivity.
Qed.

Lemma map_metric_poisoned (events : list JsVal) :
  Exists (fun event => ~ has_payload event) events ->
  exists e, map_metric events = Throw e /\ field e "name" = VStr "TypeError".
Proof.
  induction events as [|event rest IH]; intros Hbad; [inversion Hbad|].
  cbn. destruct (has_payload_dec event) as [Hgood|Hnot].
  - rewrite (ExpressProps.metric_projection event Hgood).
    destruct IH as (e & -> & He); [|eauto].
    inversion Hbad; subst; [contradiction|assumption].
  - destruct (metric_without_payload event Hnot) as (e & -> & He). eauto.
Qed.

(** X22.  One bad record spoils the whole answer: when the store answers
    the query without error but one of the records is [null] or has no
    [data] to read into, mapping it throws a [TypeError] and the route
    answers 500 with its message instead of the metrics of the other
    records. *)
Theorem metrics_route_bad_record (self : BrowserToolsExpress) (req : Request)
    (w : Server S) (client : SupabaseClient) (days : JsVal) (since : string)
    (answer error : JsVal) (events : list JsVal) (db : S) :
  let request := Query (performance_since (tableName self) since) in
  supabaseClient self = Some client ->
  days_of (query req) = Normal days ->
  toISOString (startDate (zone w) (clock w) days) = Normal since ->
  perform request (database w) = (Normal answer, db) ->
  get answer "data" = Normal (VArr events) ->
  get answer "error" = Normal error ->
  truthy error = false ->
  Exists (fun event => ~ has_payload event) events ->
  exists e,
    field e "name" = VStr "TypeError"
    /\ getMetricsPerformance self req w
       = (Normal tt, responded (failed e) (logged (metrics_failure e) (requested request db w))).
Proof.
  intros request Hclient Hdays Hsince Hanswers Hdata Herror Hfalsy Hbad. subst request.
  destruct (map_metric_poisoned events Hbad) as (e & Hthrows & Hname).
  exists e. split; [exact Hname|].
  unfold getMetricsPerformance, mbind, M_bind, bind, try_catch, lift, gets.
  rewrite Hclient, Hdays. unfold startDate in Hsince.
  destruct (ToNumber days) as [number|]; [|discriminate].
  rewrite Hsince. unfold await.
  rewrite Hanswers, Hdata, Herror, Hfalsy. unfold metrics_of. rewrite Hthrows.
  apply internal_error_run.
  destruct e; try reflexivity; discriminate.
Qed.

(** X23.  A [days] parameter given more than once, or with a bracketed
    key, reaches the route as an array or an object, and the route answers
    500 without asking the store.  Where [Number] converts it, to [NaN],
    the date becomes invalid and the error is the [RangeError]
    [Invalid time value]; where it cannot, as for [days[toString]=1], the
    error is the [TypeError] of the conversion. *)
Theorem metrics_route_repeated_days (self : BrowserToolsExpress) (req : Request)
    (w : Server S) (client : SupabaseClient) (days : JsVal) :
  supabaseClient self = Some client ->
  get (query req) "days" = Normal days ->
  repeated_or_nested days ->
  let error := if printable days then RangeError "Invalid time value" else not_primitive in
  getMetricsPerformance self req w
  = (Normal tt,
     responded {| status := 500; payload := VObj [("error", field error "message")] |}
       (logged (metrics_failure error) w)).
Proof.
  intros Hclient Hget Hshape error. subst error.
  assert (Hdays : days_of (query req) = Normal days).
  { unfold days_of. rewrite Hget.
    destruct Hshape as [(a & b & rest & ->) | (props & ->)]; reflexivity. }
  destruct (printable days) eqn:Hprint.
  - apply (ExpressProps.metrics_route_not_a_number self req w client days Hclient Hdays).
    unfold ToNumber. rewrite Hprint.
    destruct Hshape as [(a & b & rest & ->) | (props & ->)]; reflexivity.
  - apply (ExpressProps.metrics_route_not_convertible self req w client days
             Hclient Hdays Hprint).
Qed.


(** ** What the metrics route does on every request *)

Lemma metric_throws_an_object (event e : JsVal) : metric event = Throw e -> nullish e = false.
Proof.
  unfold metric. destruct (nullish event) eqn:Hevent.
  { destruct event; try discriminate; cbn; intros [= <-]; reflexivity. }
  rewrite !(ExpressProps.get_field event) by assumption.
  destruct (nullish (field event "data")) eqn:Hdata.
  { destruct (field event "data"); try discriminate; cbn; intros [= <-]; reflexivity. }
  rewrite !(ExpressProps.get_field (field event "data")) by assumption.
  discriminate.
Qed.

Lemma metrics_of_throws_an_object (data e : JsVal) :
  metrics_of data = Throw e -> nullish e = false.
Proof.
  unfold metrics_of. destruct data; try (intros [= <-]; reflexivity).
  induction elems as [|event rest IH]; cbn; [discriminate|].
  destruct (metric event) as [m|e'] eqn:Hmetric.
  - destruct (map_metric rest) as [ms|e'']; [discriminate|].
    intros [= <-]. apply IH. reflexivity.
  - intros [= <-]. exact (metric_throws_an_object event e' Hmetric).
Qed.

Lemma days_of_throws_an_object (q e : JsVal) : days_of q = Throw e -> nullish e = false.
Proof.
  unfold days_of. destruct q; cbn; try discriminate; try (intros [= <-]; reflexivity).
  destruct (default VUndefined (lookup_prop "days" props)); discriminate.
Qed.

(** Every run of the metrics route, branch by branch. *)
Lemma getMetricsPerformance_cases (self : BrowserToolsExpress) (req : Request) (w : Server S) :
  (supabaseClient self = None
   /\ getMetricsPerformance self req w = (Normal tt, responded unavailable w))
  \/ (exists e, nullish e = false
                /\ getMetricsPerformance self req w
                   = (Normal tt, responded (failed e) (logged (metrics_failure e) w)))
  \/ (exists since db,
        let request := Query (performance_since (tableName self) since) in
        let w1 := requested request db w in
        (exists e, nullish e = false
                   /\ getMetricsPerformance self req w
                      = (Normal tt, responded (failed e) (logged (metrics_failure e) w1)))
        \/ (exists e', rejects_without_reason request (database w)
                       /\ exists e, getMetricsPerformance self req w
                                    = (Throw e', logged (metrics_failure e) w1))
        \/ (exists metrics,
              getMetricsPerformance self req w
              = (Normal tt, responded {| status := 200; payload := metrics |} w1))).
Proof.
  unfold getMetricsPerformance, mbind, M_bind, bind, try_catch, lift, gets.
  destruct (supabaseClient self) as [client|] eqn:Hclient; [|left; split; reflexivity].
  right.
  destruct (days_of (query req)) as [days|e] eqn:Hdays.
  2:{ left. exists e. pose proof (days_of_throws_an_object _ _ Hdays) as He.
      split; [exact He | apply internal_error_run, He]. }
  unfold ToNumber. destruct (printable days).
  2:{ left. exists not_primitive. split; [|apply internal_error_run]; reflexivity. }
  destruct (days_back (zone w) (clock w) (primitive_number days)) as [t|];
    cbn [toISOString].
  2:{ left. eexists. split; [|apply internal_error_run]; reflexivity. }
  right. unfold await.
  destruct (perform _ (database w)) as [[answer|e] db] eqn:Hsent.
  2:{ exists (iso t), db. cbn zeta. destruct (nullish e) eqn:He.
      - right; left.
        destruct (internal_error_nullish
                    "[Browser Tools] Erro ao obter métricas de performance:" e
                    (requested (Query (performance_since (tableName self) (iso t))) db w) He)
          as [e' He'].
        exists e'. split; [exists e, db; split; assumption|]. exists e. exact He'.
      - left. exists e. split; [exact He | apply internal_error_run, He]. }
  exists (iso t), db. cbn zeta.
  destruct (nullish answer) eqn:Hanswer.
  { left. destruct answer; try discriminate; cbn;
      (eexists; split; [|apply internal_error_run]; reflexivity). }
  rewrite !(ExpressProps.get_field answer) by assumption.
  destruct (truthy (field answer "error")) eqn:Herror.
  { left. exists (field answer "error").
    split; [apply truthy_not_nullish, Herror|].
    unfold throw. apply internal_error_run, truthy_not_nullish, Herror. }
  destruct (metrics_of (field answer "data")) as [metrics|e] eqn:Hmetrics.
  - right; right. exists metrics. reflexivity.
  - left. exists e. pose proof (metrics_of_throws_an_object _ _ Hmetrics) as He.
    split; [exact He | apply internal_error_run, He].
Qed.

(** X25.  The metrics route answers every request once, with status 200,
    500 or 503, except when the store rejects the query with [null] or
    [undefined], in which case the handler fails without a response.  It
    only reads: it sends the store at most one request, always the
    performance query on the table of the instance.  And it writes to the
    console only when it fails, one [console.error] entry, also with
    logging enabled. *)
Theorem metrics_route_answers_once_and_only_reads (self : BrowserToolsExpress)
    (req : Request) (w : Server S) :
  (((getMetricsPerformance self req w).1 = Normal tt
    /\ exists response, sent (getMetricsPerformance self req w).2 = (sent w ++ [response])%list
                        /\ In (status response) [200; 500; 503])
   \/ ((exists e, (getMetricsPerformance self req w).1 = Throw e)
       /\ sent (getMetricsPerformance self req w).2 = sent w
       /\ exists since, rejects_without_reason
                          (Query (performance_since (tableName self) since)) (database w)))
  /\ (store_log (getMetricsPerformance self req w).2 = store_log w
      \/ exists since, store_log (getMetricsPerformance self req w).2
                       = (store_log w
                            ++ [Query (performance_since (tableName self) since)])%list)
  /\ (console (getMetricsPerformance self req w).2 = console w
      \/ exists e, console (getMetricsPerformance self req w).2
                   = (console w ++ [metrics_failure e])%list).
Proof.
  destruct (getMetricsPerformance_cases self req w)
    as [(_ & ->) | [(e & _ & ->) | (since & db & Hcases)]].
  - split; [left; split; [reflexivity|]; eexists; split; [reflexivity|]; cbn; tauto|].
    split; left; reflexivity.
  - split; [left; split; [reflexivity|]; eexists; split; [reflexivity|]; cbn; tauto|].
    split; [left; reflexivity | right; exists e; reflexivity].
  - cbn zeta in Hcases.
    destruct Hcases as [(e & _ & ->) | [(e' & Hrejects & e & ->) | (metrics & ->)]].
    + split; [left; split; [reflexivity|]; eexists; split; [reflexivity|]; cbn; tauto|].
      split; [right; exists since; reflexivity | right; exists e; reflexivity].
    + split; [right; split; [eauto|]; split; [reflexivity|]; eauto|].
      split; [right; exists since; reflexivity | right; exists e; reflexivity].
    + split; [left; split; [reflexivity|]; eexists; split; [reflexivity|]; cbn; tauto|].
      split; [right; exists since; reflexivity | left; reflexivity].
Qed.

(** ** What [logEvent] sends *)

(** X26.  [logEvent] does not validate: with a store and a clock in range,
    any [type] and any [data], empty or [null] included, are sent to the
    store as one record stamped with the ISO text of the clock, whatever
    the store then answers; and [logEvent] never writes a response. *)
Theorem logEvent_sends_without_validation (self : BrowserToolsExpress) (type : string)
    (data : JsVal) (userId : option string) (w : Server S) (client : SupabaseClient) :
  supabaseClient self = Some client ->
  Z.abs (clock w) <= 8640000000000000 ->
  store_log (logEvent self type data userId w).2
  = (store_log w ++ [server_insert self type data userId (iso (clock w))])%list
  /\ sent (logEvent self type data userId w).2 = sent w.
Proof.
  intros Hclient Hclock.
  unfold logEvent, server_insert, now_iso, await, print, new_Date. run.
  rewrite Hclient, (ExpressProps.TimeClip_in_range _ Hclock). cbn.
  destruct (insert (tableName self) _ (database w)) as [[answer|e] db]; cbn;
    [|split; reflexivity].
  destruct (get answer "error") as [error|e]; cbn; [|split; reflexivity].
  destruct (truthy error); cbn; [split; reflexivity|].
  destruct (enableLogging self); split; reflexivity.
Qed.

End Handlers.

Lemma postEvents_persists_witness :
  supabaseClient configured <> None
  /\ store_log (postEvents configured stamped_click (server three_events)).2
     = [Insert "browser_tools_events"
          [VObj [("type", VStr "click"); ("data", VObj [("x", VNum (Int 1))]);
                 ("timestamp", VStr "2024-03-01T00:00:00.000Z"); ("user_id", VStr "u1")]]]
  /\ sent (postEvents configured stamped_click (server three_events)).2 = [created VNull].
Proof.
  split; [discriminate|].
  rewrite (postEvents_persists (H := mem_store) configured stamped_click (server three_events)
             (createClient "https://project.supabase.co" "service-key")
             (answer VNull VNull) VNull VNull
             {| records := (records three_events
                            ++ [("browser_tools_events",
                                 client_record (VStr "click") (VObj [("x", VNum (Int 1))])
                                   (VStr "2024-03-01T00:00:00.000Z") (VStr "u1"))])%list;
                outage := None |}
             eq_refl eq_refl eq_refl eq_refl (or_introl eq_refl) ltac:(cbn; lia)
             ltac:(reflexivity) eq_refl eq_refl eq_refl).
  split; reflexivity.
Defined.

Lemma postEvents_store_failure_witness :
  store_fails (Insert "browser_tools_events"
                 [client_record (VStr "click") (VObj [("x", VNum (Int 1))])
                    (VStr "2024-03-15T12:00:00.123Z") VUndefined])
    (down (answers_error denied)) (down (answers_error denied)) denied
  /\ sent (postEvents configured click (server (down (answers_error denied)))).2
     = [{| status := 500; payload := VObj [("error", VStr "permission denied")] |}].
Proof.
  assert (Hfails : store_fails (Insert "browser_tools_events"
                      [client_record (VStr "click") (VObj [("x", VNum (Int 1))])
                         (VStr "2024-03-15T12:00:00.123Z") VUndefined])
                     (down (answers_error denied)) (down (answers_error denied)) denied).
  { right. exists (answer VNull denied). repeat split. }
  split; [exact Hfails|].
  rewrite (postEvents_store_failure (H := mem_store) configured click (server (down (answers_error denied)))
             (createClient "https://project.supabase.co" "service-key") denied
             (down (answers_error denied))
             eq_refl eq_refl eq_refl eq_refl ltac:(cbn; lia) Hfails).
  reflexivity.
Defined.

Lemma postEvents_quiet_unless_failing_witness :
  enableLogging configured = false
  /\ console (postEvents configured stamped_click (server three_events)).2 = []
  /\ console (postEvents configured click (server (down (rejects denied)))).2
     = [events_failure denied].
Proof.
  split; [reflexivity|].
  destruct (postEvents_quiet_unless_failing (H := mem_store) configured stamped_click
              (server three_events) eq_refl) as [Hsilent | (e & He & _)].
  - split; [exact Hsilent | reflexivity].
  - split; reflexivity.
Defined.


Lemma metrics_route_store_failure_witness :
  store_fails (Query (performance_since "browser_tools_events" "2024-03-08T12:00:00.123Z"))
    (down (rejects denied)) (down (rejects denied)) denied
  /\ sent (getMetricsPerformance configured (get_days []) (server (down (rejects denied)))).2
     = [{| status := 500; payload := VObj [("error", VStr "permission denied")] |}].
Proof.
  assert (Hfails : store_fails
                     (Query (performance_since "browser_tools_events"
                               "2024-03-08T12:00:00.123Z"))
                     (down (rejects denied)) (down (rejects denied)) denied)
    by (left; split; reflexivity).
  split; [exact Hfails|].
  rewrite (metrics_route_store_failure (H := mem_store) configured (get_days [])
             (server (down (rejects denied)))
             (createClient "https://project.supabase.co" "service-key")
             (VNum (Int 7)) "2024-03-08T12:00:00.123Z" denied (down (rejects denied))
             eq_refl eq_refl eq_refl Hfails).
  reflexivity.
Defined.

Lemma metrics_route_bad_record_witness :
  Exists (fun event => ~ has_payload event) (map snd (records broken_record))
  /\ map status (sent (getMetricsPerformance configured (get_days []) (server broken_record)).2)
     = [500].
Proof.
  assert (Hbad : Exists (fun event => ~ has_payload event) (map snd (records broken_record))).
  { constructor. intros [_ Hdata]. discriminate. }
  split; [exact Hbad|].
  destruct (metrics_route_bad_record (H := mem_store) configured (get_days [])
              (server broken_record)
              (createClient "https://project.supabase.co" "service-key")
              (VNum (Int 7)) "2024-03-08T12:00:00.123Z"
              (answer (VArr (map snd (records broken_record))) VNull) VNull
              (map snd (records broken_record)) broken_record
              eq_refl eq_refl eq_refl eq_refl eq_refl eq_refl eq_refl Hbad) as (e & _ & E).
  rewrite E. reflexivity.
Defined.

Lemma metrics_route_repeated_days_witness :
  repeated_or_nested (VArr [VStr "3"; VStr "5"])
  /\ repeated_or_nested (VObj [("toString", VStr "1")])
  /\ sent (getMetricsPerformance configured
             (get_days [("days", VArr [VStr "3"; VStr "5"])]) (server three_events)).2
     = [{| status := 500; payload := VObj [("error", VStr "Invalid time value")] |}]
  /\ sent (getMetricsPerformance configured
             (get_days [("days", VObj [("toString", VStr "1")])]) (server three_events)).2
     = [{| status := 500;
           payload := VObj [("error", VStr "Cannot convert object to primitive value")] |}].
Proof.
  assert (Hrepeated : repeated_or_nested (VArr [VStr "3"; VStr "5"])) by (left; eauto).
  assert (Hnested : repeated_or_nested (VObj [("toString", VStr "1")])) by (right; eauto).
  split; [exact Hrepeated|]. split; [exact Hnested|].
  rewrite (metrics_route_repeated_days (H := mem_store) configured
             (get_days [("days", VArr [VStr "3"; VStr "5"])]) (server three_events)
             (createClient "https://project.supabase.co" "service-key")
             (VArr [VStr "3"; VStr "5"]) eq_refl eq_refl Hrepeated).
  rewrite (metrics_route_repeated_days (H := mem_store) configured
             (get_days [("days", VObj [("toString", VStr "1")])]) (server three_events)
             (createClient "https://project.supabase.co" "service-key")
             (VObj [("toString", VStr "1")]) eq_refl eq_refl Hnested).
  split; reflexivity.
Defined.


Lemma logEvent_sends_without_validation_witness :
  supabaseClient configured <> None
  /\ store_log (logEvent configured EmptyString VNull (Some EmptyString)
                  (server three_events)).2
     = [Insert "browser_tools_events"
          [VObj [("type", VStr EmptyString); ("data", VNull);
                 ("timestamp", VStr "2024-03-15T12:00:00.123Z"); ("user_id", VNull)]]].
Proof.
  split; [discriminate|].
  destruct (logEvent_sends_without_validation (H := mem_store) configured EmptyString VNull
              (Some EmptyString) (server three_events)
              (createClient "https://project.supabase.co" "service-key")
              eq_refl ltac:(cbn; lia)) as [E _].
  rewrite E. reflexivity.
Defined.

Lemma postEvents_answers_once_witness :
  sent (postEvents configured click (server (down (rejects VNull)))).2 = []
  /\ exists record, rejects_without_reason (Insert "browser_tools_events" [record])
                      (down (rejects VNull)).
Proof.
  destruct (postEvents_answers_once (H := mem_store) configured click
              (server (down (rejects VNull)))) as [[Hdone _] | (_ & Hsent & Hrejects)].
  - vm_compute in Hdone. discriminate Hdone.
  - split; [exact Hsent | exact Hrejects].
Defined.

Lemma postEvents_sends_wellformed_records_witness :
  supabaseClient configured <> None
  /\ length (store_log (postEvents configured stamped_click (server three_events)).2) = 1%nat.
Proof.
  destruct (postEvents_sends_wellformed_records (H := mem_store) configured stamped_click
              (server three_events)) as [Hsame | (Hclient & t & d & s & u & E & _)].
  - vm_compute in Hsame. discriminate Hsame.
  - split; [exact Hclient|]. rewrite E. reflexivity.
Defined.

Lemma status_reports_credentials_witness :
  sent (getStatus (new_BrowserToolsExpress with_credentials) (get_days [])
          (server (down (rejects VNull)))).2
  = [status_report true].
Proof.
  rewrite (status_reports_credentials (S := MemStore) with_credentials (get_days [])
             (server (down (rejects VNull)))).
  reflexivity.
Defined.

Lemma metrics_route_answers_once_and_only_reads_witness :
  sent (getMetricsPerformance configured (get_days []) (server (down (rejects VUndefined)))).2
  = []
  /\ exists since,
       store_log (getMetricsPerformance configured (get_days [])
                    (server (down (rejects VUndefined)))).2
       = [Query (performance_since "browser_tools_events" since)].
Proof.
  destruct (metrics_route_answers_once_and_only_reads (H := mem_store) configured
              (get_days []) (server (down (rejects VUndefined))))
    as ([[Hdone _] | (_ & Hsent & _)] & [Hsame | (since & E)] & _).
  - vm_compute in Hdone. discriminate Hdone.
  - vm_compute in Hdone. discriminate Hdone.
  - vm_compute in Hsame. discriminate Hsame.
  - split; [exact Hsent | exists since; exact E].
Defined.

End IntakeProps.

